(** * GrammarlyDOR: the style-guide sectionizer and the response pipeline

    A shallow embedding of [src/app.py]: [StyleGuideProcessor],
    [ContentFormatter] and [TextAnalyzer].

    Python values are modelled as follows.
    - [str] is [string]; a character is an 8-bit code point ([ascii]), read
      as the Latin-1 block of Unicode, and the character classes below are
      the ones CPython gives these code points. The header test is also
      given on lines of arbitrary code points ([CodePoints]).
    - A [dict] is an association list in insertion order with unique keys
      (Python dicts iterate in insertion order, and the code iterates).
    - A call that may raise returns [py_result]; [try]/[except] is
      [try_except] with the classes the handler names. *)

From Stdlib Require Import Bool Arith Lia List NArith QArith.
From Stdlib Require Import Strings.Ascii Strings.String.
Import ListNotations.

Close Scope Q_scope.
Local Open Scope list_scope.
Local Open Scope string_scope.
Set Warnings "-register-all".

(** ** Exceptions *)

Inductive exn_class : Type :=
| KeyError
| JSONDecodeError
| AttributeError
| OtherException.

(** An instance of [Exception]: its class and the text it carries, which is
    [str(e)] for what the remote call, the decoder and the document reader
    raise, and the missing key for a [KeyError]. *)
Record exn : Type := mk_exn { exn_cls : exn_class; exn_msg : string }.

Inductive py_result (A : Type) : Type :=
| Ok (a : A)
| Raise (e : exn).

Arguments Ok {A} a.
Arguments Raise {A} e.

Definition bind {A B : Type} (m : py_result A) (k : A -> py_result B)
  : py_result B :=
  match m with
  | Ok a => k a
  | Raise e => Raise e
  end.

Notation "x <- m ;; k" := (bind m (fun x => k))
  (at level 61, m at next level, right associativity).

Definition exn_class_eqb (a b : exn_class) : bool :=
  match a, b with
  | KeyError, KeyError
  | JSONDecodeError, JSONDecodeError
  | AttributeError, AttributeError
  | OtherException, OtherException => true
  | _, _ => false
  end.

(** [try: body except (classes): handler]; an exception of another class
    passes through. *)
Definition try_except {A : Type} (body : py_result A)
    (classes : list exn_class) (handler : exn -> py_result A) : py_result A :=
  match body with
  | Ok a => Ok a
  | Raise e =>
      if existsb (exn_class_eqb (exn_cls e)) classes then handler e
      else Raise e
  end.

(** [try: body except Exception as e: handler]. *)
Definition try_except_Exception {A : Type} (body : py_result A)
    (handler : exn -> py_result A) : py_result A :=
  match body with
  | Ok a => Ok a
  | Raise e => handler e
  end.

Fixpoint for_each {A S : Type} (step : S -> A -> py_result S)
    (xs : list A) (s : S) : py_result S :=
  match xs with
  | [] => Ok s
  | x :: xs' => s' <- step s x ;; for_each step xs' s'
  end.

(** ** Characters *)

Definition LF : ascii := "010"%char.
Definition CR : ascii := "013"%char.
Definition dquote : ascii := "034"%char.
Definition squote : ascii := "039"%char.
Definition backslash : ascii := "092"%char.
Definition colon : ascii := ":"%char.

Definition code_in (lo hi : N) (c : ascii) : bool :=
  (lo <=? N_of_ascii c)%N && (N_of_ascii c <=? hi)%N.

(** [Py_UNICODE_ISSPACE]: TAB..CR, FS..US, SPACE, NEL, NBSP. *)
Definition is_space (c : ascii) : bool :=
  code_in 9 13 c || code_in 28 32 c || code_in 133 133 c || code_in 160 160 c.

(** [Py_UNICODE_ISUPPER]: A-Z and the Latin-1 capitals. *)
Definition is_upper (c : ascii) : bool :=
  code_in 65 90 c || code_in 192 214 c || code_in 216 222 c.

(** [Py_UNICODE_ISLOWER]: a-z, the ordinal indicators, the micro sign and the
    Latin-1 small letters. *)
Definition is_lower (c : ascii) : bool :=
  code_in 97 122 c || code_in 170 170 c || code_in 181 181 c
  || code_in 186 186 c || code_in 223 246 c || code_in 248 255 c.

(** [Py_UNICODE_ISTITLE]: no title-case letter has a code point below 256. *)
Definition is_title (c : ascii) : bool := false.

(** ** Strings *)

Definition nl : string := String LF "".

Fixpoint chars (s : string) : list ascii :=
  match s with
  | "" => []
  | String c r => c :: chars r
  end.

Fixpoint str_existsb (p : ascii -> bool) (s : string) : bool :=
  match s with
  | "" => false
  | String c r => p c || str_existsb p r
  end.

(** [s.isupper()]: no lower-case or title-case character, and at least one
    upper-case character. *)
Definition isupper (s : string) : bool :=
  negb (str_existsb (fun c => is_lower c || is_title c) s)
  && str_existsb is_upper s.

(** [s.split(sep)] for a one-character separator: never an empty list. *)
Fixpoint split (sep : ascii) (s : string) : list string :=
  match s with
  | "" => [""]
  | String c r =>
      if Ascii.eqb c sep then "" :: split sep r
      else match split sep r with
           | h :: t => String c h :: t
           | [] => [String c ""]
           end
  end.

Fixpoint lstrip (p : ascii -> bool) (s : string) : string :=
  match s with
  | "" => ""
  | String c r => if p c then lstrip p r else s
  end.

Fixpoint rstrip (p : ascii -> bool) (s : string) : string :=
  match s with
  | "" => ""
  | String c r =>
      match rstrip p r with
      | "" => if p c then "" else String c ""
      | r' => String c r'
      end
  end.

(** [s.strip()] and [s.strip(chars)], by the class of characters removed. *)
Definition strip_by (p : ascii -> bool) (s : string) : string :=
  rstrip p (lstrip p s).

Definition strip (s : string) : string := strip_by is_space s.

Definition one_of (cs : string) (c : ascii) : bool :=
  str_existsb (Ascii.eqb c) cs.

(** [s.endswith(c)] for a one-character suffix. *)
Fixpoint endswith (c : ascii) (s : string) : bool :=
  match s with
  | "" => false
  | String a "" => Ascii.eqb a c
  | String _ r => endswith c r
  end.

(** [s[:n]]. *)
Fixpoint take (n : nat) (s : string) : string :=
  match n, s with
  | O, _ => ""
  | _, "" => ""
  | S n', String c r => String c (take n' r)
  end.

(** The first character of [s] is in the class [p]; its last character is. *)
Definition begins (p : ascii -> bool) (s : string) : bool :=
  match s with
  | "" => false
  | String c _ => p c
  end.

Fixpoint ends (p : ascii -> bool) (s : string) : bool :=
  match s with
  | "" => false
  | String c "" => p c
  | String _ r => ends p r
  end.

(** ** Dictionaries *)

Definition dict (V : Type) : Type := list (string * V).

Definition keys {V : Type} (d : dict V) : list string := map fst d.
Definition values {V : Type} (d : dict V) : list V := map snd d.

Fixpoint dict_get {V : Type} (k : string) (d : dict V) : option V :=
  match d with
  | [] => None
  | (k', v) :: r => if String.eqb k' k then Some v else dict_get k r
  end.

(** [d[k] = v]: an existing key keeps its place, a new key goes last. *)
Fixpoint dict_set {V : Type} (k : string) (v : V) (d : dict V) : dict V :=
  match d with
  | [] => [(k, v)]
  | (k', v') :: r =>
      if String.eqb k' k then (k', v) :: r else (k', v') :: dict_set k v r
  end.

(** [d[k].append(x)]: [KeyError] when [k] is not a key. *)
Fixpoint dict_append {V : Type} (k : string) (x : V) (d : dict (list V))
  : py_result (dict (list V)) :=
  match d with
  | [] => Raise (mk_exn KeyError k)
  | (k', v) :: r =>
      if String.eqb k' k then Ok ((k', (v ++ [x])%list) :: r)
      else r' <- dict_append k x r ;; Ok ((k', v) :: r')
  end.

Definition dict_map {V W : Type} (f : V -> W) (d : dict V) : dict W :=
  map (fun kv => (fst kv, f (snd kv))) d.

(** ** StyleGuideProcessor *)

Module StyleGuideProcessor.

(** [page.extract_text()] of each page, or what [PyPDF2.PdfReader] raised. *)
Definition page : Type := py_result string.
Definition pdf_file : Type := py_result (list page).

Definition extract_pdf_text (pdf : pdf_file) : py_result string :=
  pages <- pdf ;;
  for_each (fun full_text (p : page) => t <- p ;; Ok (full_text ++ t ++ nl))
           pages "".

(** The test of the loop body: [line.isupper() or line.strip().endswith(':')]. *)
Definition is_header (line : string) : bool :=
  isupper line || endswith colon (strip line).

(** [line.strip().rstrip(':')]. *)
Definition header_name (line : string) : string :=
  rstrip (Ascii.eqb colon) (strip line).

(** The loop state: [current_section] and [sections]. *)
Definition scan_state : Type := (string * dict (list string))%type.

Definition scan_step (st : scan_state) (line : string) : py_result scan_state :=
  let '(current_section, sections) := st in
  if is_header line then
    let current_section := header_name line in
    Ok (current_section, dict_set current_section [] sections)
  else
    sections' <- dict_append current_section line sections ;;
    Ok (current_section, sections').

Definition scan_init : scan_state := ("General", [("General", [])]).

(** The loop of [process_style_guide]: [sections] when it ends. *)
Definition scan_sections (text : string) : py_result (dict (list string)) :=
  st <- for_each scan_step (split LF text) scan_init ;;
  Ok (snd st).

Definition process_style_guide (text : string) : py_result (dict string) :=
  sections <- scan_sections text ;;
  Ok (dict_map (String.concat nl) sections).

End StyleGuideProcessor.

(** ** The sectionizer in the words of the specification *)

Module SectionizerSpec.
Import StyleGuideProcessor.

(** Rule (a), as the code has it: without its surrounding whitespace the
    line has an upper-case character and no lower-case or title-case
    character. *)
Definition rule_cased (line : string) : Prop :=
  (exists c, In c (chars (strip line)) /\ is_upper c = true)
  /\ (forall c, In c (chars (strip line)) ->
                is_lower c = false /\ is_title c = false).

(** Rule (b): the trimmed line ends with a colon. *)
Definition rule_colon (line : string) : Prop :=
  exists body, strip line = (body ++ ":")%string.

(** The lines of the text that are not headers, and the names its header
    lines give, both in the order of the text. *)
Definition nonheader_lines (text : string) : list string :=
  filter (fun l => negb (is_header l)) (split LF text).

Definition header_names (text : string) : list string :=
  map header_name (filter is_header (split LF text)).

(** The bodies of [sg] are the newline-joins of groups of lines which,
    put end to end, are [ls]. *)
Definition Reconstructs (sg : dict string) (ls : list string) : Prop :=
  exists groups : list (list string),
    values sg = map (String.concat nl) groups /\ List.concat groups = ls.

End SectionizerSpec.

(** ** The header test on code points *)

(** A line as the sequence of its Unicode code points, for the lines that
    are not within the 8-bit range. The header test reads four classes of
    characters; they are arguments here, and [cpython] gives them on the
    blocks the sample lines use. *)
Module CodePoints.

Record classes : Type := mk_classes {
  upper : N -> bool;
  lower : N -> bool;
  title : N -> bool;
  space : N -> bool;
  letter : N -> bool
}.

Definition between (lo hi c : N) : bool := (lo <=? c)%N && (c <=? hi)%N.

Section HeaderTest.
Variable K : classes.

(** [s.isupper()]. *)
Definition isupper (s : list N) : bool :=
  negb (existsb (fun c => lower K c || title K c) s) && existsb (upper K) s.

Fixpoint lstrip (s : list N) : list N :=
  match s with
  | [] => []
  | c :: r => if space K c then lstrip r else s
  end.

Fixpoint rstrip (s : list N) : list N :=
  match s with
  | [] => []
  | c :: r =>
      match rstrip r with
      | [] => if space K c then [] else [c]
      | r' => c :: r'
      end
  end.

(** [s.strip()]. *)
Definition strip (s : list N) : list N := rstrip (lstrip s).

(** [s.endswith(c)] for one character. *)
Fixpoint endswith (c : N) (s : list N) : bool :=
  match s with
  | [] => false
  | [a] => N.eqb a c
  | _ :: r => endswith c r
  end.

(** [line.isupper() or line.strip().endswith(':')]. *)
Definition is_header (line : list N) : bool :=
  isupper line || endswith 58 (strip line).

(** Rule (a) in the words of the specification: without its surrounding
    whitespace the line has a letter, and each of its letters is upper
    case. *)
Definition rule_uppercase (line : list N) : Prop :=
  (exists c, In c (strip line) /\ letter K c = true)
  /\ (forall c, In c (strip line) -> letter K c = true -> upper K c = true).

(** Rule (a), as the code has it. *)
Definition rule_cased (line : list N) : Prop :=
  (exists c, In c (strip line) /\ upper K c = true)
  /\ (forall c, In c (strip line) -> lower K c = false /\ title K c = false).

(** Rule (b): the trimmed line ends with a colon. *)
Definition rule_colon (line : list N) : Prop :=
  exists body, strip line = (body ++ [58%N])%list.

End HeaderTest.

(** CPython's classes. Whitespace and title case are given in full. Upper
    case, lower case and letters are given on the Latin-1 block, the Roman
    numerals, the circled Latin letters and the CJK ideographs from U+4E00
    to U+9FA5; a code point of another block is in none of the three
    here. *)
Definition cpython : classes := {|
  upper c :=
    between 65 90 c || between 192 214 c || between 216 222 c
    || between 0x2160 0x216F c || between 0x24B6 0x24CF c;
  lower c :=
    between 97 122 c || N.eqb c 170 || N.eqb c 181 || N.eqb c 186
    || between 223 246 c || between 248 255 c
    || between 0x2170 0x217F c || between 0x24D0 0x24E9 c;
  title c :=
    N.eqb c 0x1C5 || N.eqb c 0x1C8 || N.eqb c 0x1CB || N.eqb c 0x1F2
    || between 0x1F88 0x1F8F c || between 0x1F98 0x1F9F c
    || between 0x1FA8 0x1FAF c
    || N.eqb c 0x1FBC || N.eqb c 0x1FCC || N.eqb c 0x1FFC;
  space c :=
    between 9 13 c || between 28 32 c || N.eqb c 133 || N.eqb c 160
    || N.eqb c 0x1680 || between 0x2000 0x200A c
    || between 0x2028 0x2029 c
    || N.eqb c 0x202F || N.eqb c 0x205F || N.eqb c 0x3000;
  letter c :=
    between 65 90 c || between 97 122 c || N.eqb c 170 || N.eqb c 181
    || N.eqb c 186 || between 192 214 c || between 216 246 c
    || between 248 255 c || between 0x4E00 0x9FA5 c
|}.

(** An ideograph and a capital; the Roman numeral four; three capitals and
    a circled small letter. *)
Definition ideograph_capital : list N := [0x4E2D; 0x41]%N.
Definition roman_four : list N := [0x2163]%N.
Definition capitals_circled : list N := [0x41; 0x42; 0x43; 0x24D0]%N.

End CodePoints.

Example sectionize_sample :
  StyleGuideProcessor.process_style_guide
    ("intro" ++ nl ++ "TONE" ++ nl ++ "be kind" ++ nl ++ "Rules: " ++ nl
     ++ "one" ++ nl ++ "two")
  = Ok [("General", "intro"); ("TONE", "be kind");
        ("Rules", "one" ++ nl ++ "two")].
Proof. reflexivity. Qed.

(** ** ContentFormatter *)

(** What [clean_text] and [str] may be handed: a string, or a [dict] or
    [list], given by the text [str()] makes of it. *)
Inductive py_value : Type :=
| PyStr (s : string)
| PyContainer (str_of : string).

(** [str(v)]. *)
Definition py_str (v : py_value) : string :=
  match v with
  | PyStr s => s
  | PyContainer r => r
  end.

(** [s.replace(old, new)] for a non-empty [old]: the occurrences are taken
    from the left and do not overlap; [skip] counts the characters of the
    occurrence just replaced that are still to be passed over. *)
Fixpoint replace_from (skip : nat) (old new s : string) : string :=
  match s with
  | "" => ""
  | String c r =>
      match skip with
      | S k => replace_from k old new r
      | O =>
          if prefix old s
          then new ++ replace_from (String.length old - 1) old new r
          else String c (replace_from 0 old new r)
      end
  end.

Definition replace (old new s : string) : string := replace_from 0 old new s.

(** [pat in s]. *)
Fixpoint occurs (pat s : string) : bool :=
  prefix pat s
  || match s with
     | "" => false
     | String _ r => occurs pat r
     end.

Definition dq : string := String dquote "".

Module ContentFormatter.

(** ['[TextBlock(text="'] and ['", type="text")]']. *)
Definition block_open : string := "[TextBlock(text=" ++ dq.
Definition block_close : string := dq ++ ", type=" ++ dq ++ "text" ++ dq ++ ")]".

(** The two-character sequences ['\\n'] and ['\\r']. *)
Definition escaped_n : string := String backslash "n".
Definition escaped_r : string := String backslash "r".

Definition is_quote (c : ascii) : bool := one_of (String dquote (String squote "")) c.

Definition clean_text (v : py_value) : string :=
  let text := py_str v in
  let text := replace block_open "" text in
  let text := replace block_close "" text in
  let text := replace escaped_n nl text in
  let text := replace escaped_r (String CR "") text in
  let text := strip_by is_quote text in
  strip text.

(** The text has neither wrapper marker and neither escape sequence. *)
Definition marker_free (x : string) : bool :=
  negb (occurs block_open x) && negb (occurs block_close x)
  && negb (occurs escaped_n x) && negb (occurs escaped_r x).

(** The text begins or ends with a single or double quote. *)
Definition quoted_end (s : string) : bool :=
  begins is_quote s || ends is_quote s.

End ContentFormatter.

(** ** JSON values and the brace pattern *)

(** What [json.loads] returns. A float is kept as the text of its literal. *)
Inductive json : Type :=
| JNull
| JBool (b : bool)
| JInt (z : Z)
| JFloat (literal : string)
| JStr (s : string)
| JList (items : list json)
| JDict (fields : list (string * json)).

(** The longest prefix of [s] that ends with [c]: what a greedy [[\s\S]*]
    followed by [c] matches after backtracking. *)
Fixpoint upto_last (c : ascii) (s : string) : option string :=
  match s with
  | "" => None
  | String a r =>
      match upto_last c r with
      | Some m => Some (String a m)
      | None => if Ascii.eqb a c then Some (String a "") else None
      end
  end.

(** The match of [\{[\s\S]*\}] anchored at the start of [s]. *)
Definition match_braces_at (s : string) : option string :=
  match s with
  | String a r =>
      if Ascii.eqb a "{"%char then
        match upto_last "}"%char r with
        | Some m => Some (String a m)
        | None => None
        end
      else None
  | "" => None
  end.

(** [re.search(r'\{[\s\S]*\}', s)]: the match at the leftmost position
    that has one; [None] when there is none. The result is [.group()]. *)
Fixpoint re_search_braces (s : string) : option string :=
  match match_braces_at s with
  | Some m => Some m
  | None =>
      match s with
      | "" => None
      | String _ r => re_search_braces r
      end
  end.

(** [s.find(c)] and [s.rfind(c)] for one character. *)
Fixpoint find_first (c : ascii) (s : string) : option nat :=
  match s with
  | "" => None
  | String a r =>
      if Ascii.eqb a c then Some 0 else option_map S (find_first c r)
  end.

Fixpoint find_last (c : ascii) (s : string) : option nat :=
  match s with
  | "" => None
  | String a r =>
      match find_last c r with
      | Some j => Some (S j)
      | None => if Ascii.eqb a c then Some 0 else None
      end
  end.

(** The span in the words of the specification: from the first opening
    brace of the text to its last closing brace, when the one comes before
    the other. *)
Definition first_to_last_brace (s : string) : option string :=
  match find_first "{"%char s, find_last "}"%char s with
  | Some i, Some j =>
      if Nat.ltb i j then Some (substring i (j - i + 1) s) else None
  | _, _ => None
  end.

(** ** TextAnalyzer *)

Module TextAnalyzer.

(** One entry of [messages]. *)
Record message : Type := mk_message { role : string; content : string }.

(** The keyword arguments of [client.messages.create]. *)
Record request : Type := mk_request {
  model : string;
  max_tokens : Z;
  temperature : Q;
  messages : list message
}.

(** [self]: the client, as what [messages.create] gives for a request (the
    [content] of the response, or the exception raised), and the stored
    style guide. *)
Record t : Type := mk {
  client : request -> py_result py_value;
  style_guide : dict string
}.

(** [__init__]: the client made for the key, and an empty style guide. *)
Definition init (client : request -> py_result py_value) : t := mk client [].

Definition load_style_guide (self : t) (pdf : StyleGuideProcessor.pdf_file)
  : t * py_result (dict string) :=
  match StyleGuideProcessor.extract_pdf_text pdf with
  | Raise e => (self, Raise e)
  | Ok text =>
      match StyleGuideProcessor.process_style_guide text with
      | Raise e => (self, Raise e)
      | Ok guide =>
          let self := mk (client self) guide in
          (self, Ok (style_guide self))
      end
  end.

(** One entry of the list comprehension: [f"{k}: {v[:300]}..."]. *)
Definition render_section (kv : string * string) : string :=
  fst kv ++ ": " ++ take 300 (snd kv) ++ "...".

(** The first statement of [analyze_text] and of [generate_text]; an empty
    [dict] is false. *)
Definition style_guide_context (guide : dict string) : string :=
  match guide with
  | [] => "No style guide loaded."
  | _ => String.concat nl (map render_section guide)
  end.

Definition analysis_prompt (text content_type style_guide_context : string)
  : string :=
  String.concat nl [
    "";
    "        Analyze this " ++ content_type ++ " content and respond with ONLY a JSON object in the following structure:";
    "        {";
    "            " ++ dq ++ "overall_assessment" ++ dq ++ ": " ++ dq ++ "A detailed evaluation of the overall content quality and effectiveness" ++ dq ++ ",";
    "            " ++ dq ++ "style_evaluation" ++ dq ++ ": " ++ dq ++ "An analysis of the writing style, tone, and clarity" ++ dq ++ ",";
    "            " ++ dq ++ "suggestions" ++ dq ++ ": [" ++ dq ++ "Specific suggestion 1" ++ dq ++ ", " ++ dq ++ "Specific suggestion 2" ++ dq ++ ", " ++ dq ++ "Specific suggestion 3" ++ dq ++ "]";
    "        }";
    "";
    "        Content to analyze:";
    "        " ++ text;
    "";
    "        Style Guidelines:";
    "        " ++ style_guide_context;
    "";
    "        Remember: Respond with only the JSON object, no additional text or explanation.";
    "        "
  ].

Definition generation_prompt (prompt content_type style_guide_context : string)
  : string :=
  String.concat nl [
    "";
    "        Generate " ++ content_type ++ " content following these guidelines:";
    "        ";
    "        " ++ style_guide_context;
    "        ";
    "        Requirements:";
    "        - Professional and clear writing style";
    "        - Proper formatting for " ++ content_type;
    "        - Direct and concise communication";
    "        ";
    "        Content prompt:";
    "        " ++ prompt;
    "        "
  ].

Definition claude_model : string := "claude-3-5-sonnet-20241022".

Definition user_message (prompt : string) : list message :=
  [mk_message "user" prompt].

(** The dictionary after the comment [# Fallback response]. *)
Definition fallback_response (text : string) : json :=
  JDict [
    ("overall_assessment", JStr "Analysis completed with formatting issues.");
    ("style_evaluation", JStr ("Content analyzed: " ++ take 100 text ++ "..."));
    ("suggestions", JList [
       JStr "Consider reviewing the content for clarity";
       JStr "Ensure all key points are clearly communicated";
       JStr "Review formatting and structure"
     ])
  ].

(** The dictionary the handler of [except Exception as e] returns. *)
Definition error_response (e : exn) : json :=
  JDict [
    ("overall_assessment", JStr ("Analysis error: " ++ exn_msg e));
    ("style_evaluation", JStr "Unable to complete style evaluation");
    ("suggestions", JList [
       JStr "Please try again in a moment";
       JStr "Consider breaking content into smaller sections"
     ])
  ].

Definition generation_failed : string :=
  "Content generation failed. Please try again.".

(** The arguments of the call in [analyze_text]. *)
Definition analysis_request (self : t) (text content_type : string) : request :=
  let style_guide_context := style_guide_context (style_guide self) in
  let prompt := analysis_prompt text content_type style_guide_context in
  mk_request claude_model 1500 0 (user_message prompt).

(** The arguments of the call in [generate_text]. *)
Definition generation_request (self : t) (prompt content_type : string)
  : request :=
  let style_guide_context := style_guide_context (style_guide self) in
  let generation_prompt :=
    generation_prompt prompt content_type style_guide_context in
  mk_request claude_model 1500 (7 # 10) (user_message generation_prompt).

Section WithDecoder.
(** [json.loads]: the decoded value, or the exception raised. *)
Variable json_loads : string -> py_result json.

(** The two nested [try] statements on [response_text]: [Some v] when a
    [return v] is reached, [None] when control falls out of them. *)
Definition parse_attempts (response_text : string)
  : py_result (option json) :=
  try_except
    (v <- json_loads response_text ;; Ok (Some v))
    [JSONDecodeError]
    (fun _ =>
       try_except
         (match re_search_braces response_text with
          | Some json_str => v <- json_loads json_str ;; Ok (Some v)
          | None => Ok None
          end)
         [JSONDecodeError; AttributeError]
         (fun _ => Ok None)).

Definition analyze_text (self : t) (text content_type : string)
  : py_result json :=
  try_except_Exception
    (response_content <-
       client self (analysis_request self text content_type) ;;
     let response_text := py_str response_content in
     returned <- parse_attempts response_text ;;
     match returned with
     | Some v => Ok v
     | None => Ok (fallback_response text)
     end)
    (fun e => Ok (error_response e)).
End WithDecoder.

(** [generate_text] gives its result and the messages it passed to
    [st.error]. *)
Definition generate_text (self : t) (prompt content_type : string)
  : py_result string * list string :=
  match client self (generation_request self prompt content_type) with
  | Ok response_content =>
      (Ok (ContentFormatter.clean_text response_content), [])
  | Raise e =>
      (Ok generation_failed, ["Generation error: " ++ exn_msg e])
  end.

End TextAnalyzer.

(** ** The sidebar and the generation page *)

Module Pages.
Import TextAnalyzer.

(** The calls a page makes to Streamlit, in order. A widget gives back what
    the user entered; that value is an argument of the page below. *)
Inductive st_call : Type :=
| sidebar_title (body : string)
| sidebar_header (body : string)
| sidebar_file_uploader (label type : string)
| spinner (text : string)
| sidebar_success (body : string)
| sidebar_error (body : string)
| sidebar_radio (label : string) (options : list string)
| sidebar_selectbox (label : string) (options : list string)
| header (body : string)
| write (body : string)
| text_area (label : string) (value help : option string) (height : option Z)
| button (label : string)
| error (body : string).

Definition tools : list string := ["Content Generation"; "Content Analysis"].

Definition content_types : list string :=
  ["Email"; "Customer Correspondence"; "Technical Documentation";
   "Marketing Copy"; "General Business"].

(** [create_sidebar]: [uploaded_file], [page] and [content_type] are what
    the uploader, the radio and the select box give back. The result is the
    analyzer after the call, the calls made, and the returned pair. *)
Definition create_sidebar (analyzer : t)
    (uploaded_file : option StyleGuideProcessor.pdf_file)
    (page content_type : string)
  : t * list st_call * (string * string) :=
  let upload :=
    match uploaded_file with
    | Some pdf =>
        match load_style_guide analyzer pdf with
        | (analyzer', Ok sections) =>
            (analyzer',
             [spinner "Processing style guide...";
              sidebar_success "Style guide loaded successfully!"])
        | (analyzer', Raise e) =>
            (analyzer',
             [spinner "Processing style guide...";
              sidebar_error ("Error loading style guide: " ++ exn_msg e)])
        end
    | None => (analyzer, [])
    end in
  (fst upload,
   ([sidebar_title "Navigation";
     sidebar_header "Style Guide";
     sidebar_file_uploader "Upload Style Guide (PDF)" "pdf"]
    ++ snd upload
    ++ [sidebar_radio "Choose a tool:" tools;
        sidebar_selectbox "Select content type:" content_types])%list,
   (page, content_type)).

Definition generation_help : string :=
  "Describe the content you want to create. Be specific about tone, length, and key points.".

(** [render_generation_page]: [prompt] is what the text area gives back and
    [pressed] what the button does. *)
Definition render_generation_page (analyzer : t) (content_type : string)
    (prompt : string) (pressed : bool) : list st_call :=
  ([header "Content Generation";
    write ("Generating " ++ content_type ++ " content");
    text_area "What would you like to generate?" None (Some generation_help)
              None;
    button "Generate Content"]
   ++ if pressed then
        spinner "Generating..."
        :: (let generated := generate_text analyzer prompt content_type in
            map error (snd generated)
            ++ match fst generated with
               | Ok generated_content =>
                   [text_area "Generated Content (Copy-Paste Ready):"
                              (Some generated_content) None (Some 400%Z)]
               | Raise e =>
                   [error ("An error occurred during generation: "
                           ++ exn_msg e)]
               end)
      else [])%list.

End Pages.

(** ** The result shape and sample runs *)

(** The three fields of an analysis result are present. *)
Definition is_analysis_result (v : json) : bool :=
  match v with
  | JDict fields =>
      match dict_get "overall_assessment" fields,
            dict_get "style_evaluation" fields,
            dict_get "suggestions" fields with
      | Some _, Some _, Some _ => true
      | _, _, _ => false
      end
  | _ => false
  end.

Definition json_field (k : string) (v : json) : option json :=
  match v with
  | JDict fields => dict_get k fields
  | _ => None
  end.

Module Samples.

(** The object of the example in the specification and its text. *)
Definition object_text : string :=
  "{" ++ dq ++ "overall_assessment" ++ dq ++ ":" ++ dq ++ "ok" ++ dq ++ ","
  ++ dq ++ "style_evaluation" ++ dq ++ ":" ++ dq ++ "fine" ++ dq ++ ","
  ++ dq ++ "suggestions" ++ dq ++ ":[" ++ dq ++ "x" ++ dq ++ "]}".

Definition object_value : json :=
  JDict [("overall_assessment", JStr "ok");
         ("style_evaluation", JStr "fine");
         ("suggestions", JList [JStr "x"])].

Definition wrapped_text : string :=
  "some preamble text " ++ object_text ++ " trailing".

Definition no_json_text : string := "no json here at all".

(** [json.loads] on the texts the sample runs decode: an empty array, the
    object above, and texts that are not JSON. It stands for the decoder on
    these texts only. *)
Definition loads (s : string) : py_result json :=
  if String.eqb s "[]" then Ok (JList [])
  else if String.eqb s object_text then Ok object_value
  else Raise (mk_exn JSONDecodeError
                     "Expecting value: line 1 column 1 (char 0)").

(** An analyzer whose remote call answers every request with [content]. *)
Definition answering (content : py_value) (guide : dict string)
  : TextAnalyzer.t :=
  TextAnalyzer.mk (fun _ => Ok content) guide.

(** An analyzer whose remote call raises [e] on every request. *)
Definition failing (e : exn) (guide : dict string) : TextAnalyzer.t :=
  TextAnalyzer.mk (fun _ => Raise e) guide.

Definition connection_error : exn := mk_exn OtherException "Connection error.".

(** A text with two headers of different names. *)
Definition two_sections : string :=
  ("intro" ++ nl ++ "TONE" ++ nl ++ "be kind" ++ nl ++ "" ++ nl
   ++ "Rules:" ++ nl ++ "one")%string.

(** A text with a header named like the default section. *)
Definition general_twice : string :=
  ("a" ++ nl ++ "General:" ++ nl ++ "b")%string.

(** A content of more than 100 characters. *)
Definition long_content : string :=
  "0123456789012345678901234567890123456789012345678901234567890123456789"
  ++ "012345678901234567890123456789 and the rest of the content".

(** A stored guide, a document of one page and a document that cannot be
    read. *)
Definition old_guide : dict string :=
  [("General", ""); ("VOICE", "use the active voice")].

Definition new_document : StyleGuideProcessor.pdf_file :=
  Ok [Ok ("TONE" ++ nl ++ "be kind")].

Definition broken_document : StyleGuideProcessor.pdf_file :=
  Raise (mk_exn OtherException "EOF marker not found").

(** A reply in double quotes, and one with quotes inside quotes. *)
Definition quoted_reply : string := dq ++ "Dear team, thank you." ++ dq.

Definition nested_quotes : string := dq ++ "  'quoted draft'  " ++ dq.

End Samples.

(** ** Facts about strings *)

Lemma split_nonempty (sep : ascii) (s : string) : split sep s <> [].
Proof.
  induction s as [|c r IH]; simpl; [discriminate|].
  destruct (Ascii.eqb c sep); [discriminate|].
  destruct (split sep r); discriminate.
Qed.

Lemma concat_cons (sep x : string) (l : list string) :
  l <> [] -> String.concat sep (x :: l) = x ++ sep ++ String.concat sep l.
Proof. destruct l; [congruence | reflexivity]. Qed.

(** [sep.join(s.split(sep)) == s]. *)
Lemma concat_split (s : string) : String.concat nl (split LF s) = s.
Proof.
  induction s as [|c r IH]; [reflexivity|].
  simpl split. destruct (Ascii.eqb_spec c LF) as [->|Hc].
  - rewrite concat_cons by apply split_nonempty. simpl. now rewrite IH.
  - pose proof (split_nonempty LF r) as Hne.
    destruct (split LF r) as [|h t]; [congruence|].
    destruct t as [|h' t'].
    + simpl in *. now rewrite IH.
    + rewrite concat_cons by discriminate.
      rewrite concat_cons in IH by discriminate.
      now rewrite <- IH.
Qed.

Lemma append_assoc (a b c : string) : (a ++ b) ++ c = a ++ b ++ c.
Proof. induction a as [|x a IH]; simpl; [reflexivity | now rewrite IH]. Qed.

Lemma append_nil_r (a : string) : a ++ "" = a.
Proof. induction a as [|x a IH]; simpl; [reflexivity | now rewrite IH]. Qed.

Lemma append_length (a b : string) :
  String.length (a ++ b) = String.length a + String.length b.
Proof. induction a as [|x a IH]; simpl; [reflexivity | now rewrite IH]. Qed.

(** A line of a joined text that ends with [c], taken apart around [c]. *)
Lemma concat_around (xs ys : list string) (a c : string) :
  ys <> [] ->
  String.concat nl (xs ++ (a ++ c)%string :: ys)%list
  = String.concat nl (xs ++ [a])%list ++ c ++ nl ++ String.concat nl ys.
Proof.
  intros Hys. induction xs as [|x xs IH].
  - cbn [app]. rewrite concat_cons by assumption. cbn [String.concat].
    apply append_assoc.
  - cbn [app]. rewrite !concat_cons by (destruct xs; discriminate).
    rewrite IH, !append_assoc. reflexivity.
Qed.

Lemma take_all (n : nat) (s : string) : String.length s <= n -> take n s = s.
Proof.
  revert n. induction s as [|x s IH]; intros [|n] H; simpl in *;
    try reflexivity; try lia.
  rewrite IH by lia. reflexivity.
Qed.

Lemma take_length (n : nat) (s : string) :
  String.length (take n s) = Nat.min n (String.length s).
Proof.
  revert s. induction n as [|n IH]; intros s; [reflexivity|].
  destruct s as [|c r]; [reflexivity|]. simpl. now rewrite IH.
Qed.

Lemma take_prefix (n : nat) (s : string) : exists rest, s = take n s ++ rest.
Proof.
  revert s. induction n as [|n IH]; intros s; [now exists s|].
  destruct s as [|c r]; [now exists ""|].
  destruct (IH r) as (rest & Hrest). exists rest. simpl. now rewrite <- Hrest.
Qed.

Lemma str_existsb_exists (p : ascii -> bool) (s : string) :
  str_existsb p s = true <-> exists c, In c (chars s) /\ p c = true.
Proof.
  induction s as [|a r IH]; simpl.
  - split; [discriminate | intros (c & [] & _)].
  - rewrite orb_true_iff, IH. split.
    + intros [H | (c & Hin & Hc)]; eauto.
    + intros (c & [-> | Hin] & Hc); eauto.
Qed.

Lemma str_existsb_false (p : ascii -> bool) (s : string) :
  str_existsb p s = false <-> forall c, In c (chars s) -> p c = false.
Proof.
  induction s as [|a r IH]; simpl.
  - split; [intros _ c [] | reflexivity].
  - rewrite orb_false_iff, IH. split.
    + intros [Ha Hr] c [<- | Hin]; auto.
    + intros H; split; [|intros c Hc]; apply H; auto.
Qed.

Section Stripping.
Variables p q : ascii -> bool.
Hypothesis q_off_p : forall c, p c = true -> q c = false.

Lemma str_existsb_lstrip (s : string) :
  str_existsb q (lstrip p s) = str_existsb q s.
Proof.
  induction s as [|c r IH]; [reflexivity|]. simpl.
  destruct (p c) eqn:Hp; [|reflexivity].
  now rewrite IH, (q_off_p _ Hp).
Qed.

Lemma str_existsb_rstrip (s : string) :
  str_existsb q (rstrip p s) = str_existsb q s.
Proof.
  induction s as [|c r IH]; [reflexivity|]. simpl.
  destruct (rstrip p r) as [|c' r'] eqn:Hr.
  - rewrite <- IH. simpl. destruct (p c) eqn:Hp.
    + now rewrite (q_off_p _ Hp).
    + simpl. now rewrite orb_false_r.
  - simpl in *. now rewrite IH.
Qed.

Lemma str_existsb_strip_by (s : string) :
  str_existsb q (strip_by p s) = str_existsb q s.
Proof.
  unfold strip_by. now rewrite str_existsb_rstrip, str_existsb_lstrip.
Qed.
End Stripping.

(** ** Facts about the character classes *)

Ltac each_code c := destruct c as [[] [] [] [] [] [] [] []].

Lemma is_space_not_upper (c : ascii) : is_space c = true -> is_upper c = false.
Proof. each_code c; (reflexivity || discriminate). Qed.

Lemma is_space_not_lower (c : ascii) :
  is_space c = true -> is_lower c || is_title c = false.
Proof. each_code c; (reflexivity || discriminate). Qed.

(** ** Facts about stripping *)

Lemma endswith_iff (c : ascii) (s : string) :
  endswith c s = true <-> exists body, s = body ++ String c "".
Proof.
  induction s as [|a r IH].
  - split; [discriminate|]. intros ([|b body] & H); discriminate.
  - destruct r as [|a' r'].
    + simpl. split.
      * intros H%Ascii.eqb_eq. subst. now exists "".
      * intros ([|b [|b' body]] & H); inversion H; subst;
          apply Ascii.eqb_refl.
    + change (endswith c (String a (String a' r')))
        with (endswith c (String a' r')).
      rewrite IH. split.
      * intros (body & ->). now exists (String a body).
      * intros ([|b body] & H); inversion H. now exists body.
Qed.

Section RStrip.
Variable p : ascii -> bool.

Lemma rstrip_tail (s : string) :
  exists tail, s = rstrip p s ++ tail
               /\ forall c, In c (chars tail) -> p c = true.
Proof.
  induction s as [|a r (tail & Heq & Hall)].
  - exists "". split; [reflexivity | intros c []].
  - simpl. destruct (rstrip p r) as [|b r'] eqn:Hr.
    + simpl in Heq. subst tail. destruct (p a) eqn:Hp.
      * exists (String a r). split; [reflexivity|].
        intros c [<- | Hin]; auto.
      * exists r. split; [reflexivity | assumption].
    + exists tail. split; [|assumption].
      change (String a r = String a (String b r' ++ tail)). now f_equal.
Qed.

Lemma rstrip_not_endswith (c : ascii) (s : string) :
  p c = true -> endswith c (rstrip p s) = false.
Proof.
  intros Hc. induction s as [|a r IH]; [reflexivity|]. simpl.
  destruct (rstrip p r) as [|b r'] eqn:Hr.
  - destruct (p a) eqn:Hp; [reflexivity|]. simpl.
    destruct (Ascii.eqb_spec a c); congruence.
  - exact IH.
Qed.

Lemma rstrip_length (s : string) :
  String.length (rstrip p s) <= String.length s.
Proof.
  induction s as [|a r IH]; [constructor|]. simpl.
  destruct (rstrip p r); [destruct (p a)|]; simpl in *; lia.
Qed.

Lemma lstrip_length (s : string) :
  String.length (lstrip p s) <= String.length s.
Proof.
  induction s as [|a r IH]; [constructor|]. simpl.
  destruct (p a); simpl; lia.
Qed.
End RStrip.

(** ** Facts about dictionaries *)

Section DictFacts.
Context {V : Type}.
Local Open Scope list_scope.

Lemma dict_get_set (k k' : string) (v : V) (d : dict V) :
  dict_get k' (dict_set k v d)
  = if String.eqb k k' then Some v else dict_get k' d.
Proof.
  induction d as [|[a b] r IH]; simpl.
  - destruct (String.eqb k k'); reflexivity.
  - destruct (String.eqb_spec a k) as [->|Hak]; simpl.
    + destruct (String.eqb k k'); reflexivity.
    + rewrite IH. destruct (String.eqb_spec a k') as [->|Hak'];
        [|reflexivity].
      destruct (String.eqb_spec k k'); congruence.
Qed.

Lemma keys_set_in (k : string) (v : V) (d : dict V) :
  In k (keys (dict_set k v d)).
Proof.
  induction d as [|[a b] r IH]; simpl; [now left|].
  destruct (String.eqb_spec a k) as [->|]; simpl; auto.
Qed.

Lemma keys_set_incl (k k' : string) (v : V) (d : dict V) :
  In k' (keys d) -> In k' (keys (dict_set k v d)).
Proof.
  induction d as [|[a b] r IH]; simpl; [tauto|].
  destruct (String.eqb a k); simpl; tauto.
Qed.

Lemma dict_get_absent (k : string) (d : dict V) :
  ~ In k (keys d) -> dict_get k d = None.
Proof.
  induction d as [|[a b] r IH]; simpl; [reflexivity|]. intros Hn.
  destruct (String.eqb_spec a k) as [->|]; [tauto|]. apply IH. tauto.
Qed.

(** Setting a key that is not there puts it last. *)
Lemma dict_set_fresh (k : string) (v : V) (d : dict V) :
  ~ In k (keys d) -> dict_set k v d = (d ++ [(k, v)])%list.
Proof.
  induction d as [|[a b] r IH]; simpl; [reflexivity|]. intros Hn.
  destruct (String.eqb_spec a k) as [->|]; [tauto|].
  rewrite IH; tauto.
Qed.

Lemma dict_append_in (k : string) (x : V) (d : dict (list V)) :
  In k (keys d) ->
  exists d', dict_append k x d = Ok d' /\ keys d' = keys d.
Proof.
  induction d as [|[a b] r IH]; simpl; [tauto|]. intros Hin.
  destruct (String.eqb_spec a k) as [->|Hak]; [eauto|].
  destruct IH as (r' & -> & Hk); [tauto|].
  simpl. eexists; split; [reflexivity|]. simpl. now rewrite Hk.
Qed.

(** Appending under the last key, when no earlier key equals it. *)
Lemma dict_append_last (k : string) (x : V) (d : dict (list V))
    (b : list V) :
  ~ In k (keys d) ->
  dict_append k x (d ++ [(k, b)])%list = Ok (d ++ [(k, (b ++ [x])%list)])%list.
Proof.
  induction d as [|[a c] r IH]; simpl; intros Hn.
  - now rewrite String.eqb_refl.
  - destruct (String.eqb_spec a k) as [->|]; [tauto|].
    rewrite IH by tauto. reflexivity.
Qed.
End DictFacts.

(** ** Facts about the scan *)

Module SectionizerFacts.
Import StyleGuideProcessor.
Local Open Scope list_scope.

(** The scan never raises: the current section is always a key. *)
Lemma for_each_scan_total (lines : list string) :
  forall cur secs,
    In cur (keys secs) ->
    exists cur' secs',
      for_each scan_step lines (cur, secs) = Ok (cur', secs')
      /\ (forall k, In k (keys secs) -> In k (keys secs')).
Proof.
  induction lines as [|l ls IH]; intros cur secs Hcur; simpl.
  - eauto.
  - destruct (is_header l) eqn:Hl; simpl.
    + destruct (IH (header_name l) (dict_set (header_name l) [] secs))
        as (c' & s' & -> & Hk); [apply keys_set_in|].
      exists c', s'. split; [reflexivity|].
      intros k Hin. now apply Hk, keys_set_incl.
    + destruct (dict_append_in cur l secs Hcur) as (d' & -> & Hkeys). simpl.
      destruct (IH cur d') as (c' & s' & -> & Hk); [now rewrite Hkeys|].
      exists c', s'. split; [reflexivity|].
      intros k Hin. apply Hk. now rewrite Hkeys.
Qed.

(** Without header lines, every line goes to the current section. *)
Lemma for_each_scan_no_header (lines : list string) :
  forall cur front body,
    ~ In cur (keys front) ->
    (forall l, In l lines -> is_header l = false) ->
    for_each scan_step lines (cur, (front ++ [(cur, body)])%list)
    = Ok (cur, (front ++ [(cur, (body ++ lines)%list)])%list).
Proof.
  induction lines as [|l ls IH]; intros cur front body Hn Hall; simpl.
  - now rewrite app_nil_r.
  - rewrite (Hall l) by now left. rewrite dict_append_last by assumption.
    simpl. rewrite IH; [|assumption|intros; apply Hall; now right].
    now rewrite <- app_assoc.
Qed.

(** With header names that are new each time, the sections come in scan
    order and keep every line that is not a header. *)
Lemma for_each_scan_distinct (lines : list string) :
  forall cur front body,
    NoDup (keys (front ++ [(cur, body)])
           ++ map header_name (filter is_header lines))%list ->
    exists cur' secs',
      for_each scan_step lines (cur, (front ++ [(cur, body)])%list)
      = Ok (cur', secs')
      /\ keys secs'
         = (keys (front ++ [(cur, body)])
            ++ map header_name (filter is_header lines))%list
      /\ List.concat (values secs')
         = (List.concat (values (front ++ [(cur, body)]))
            ++ filter (fun l => negb (is_header l)) lines)%list.
Proof.
  induction lines as [|l ls IH]; intros cur front body Hnd.
  - simpl. do 2 eexists. split; [reflexivity|]. now rewrite !app_nil_r.
  - cbn [for_each scan_step filter]. cbn [filter] in Hnd.
    destruct (is_header l) eqn:Hl.
    + cbn [negb map] in *. cbn [bind].
      assert (Hfresh : ~ In (header_name l) (keys (front ++ [(cur, body)]))).
      { apply NoDup_remove_2 in Hnd. intros Hin. apply Hnd.
        apply in_or_app. now left. }
      rewrite dict_set_fresh by assumption.
      destruct (IH (header_name l) (front ++ [(cur, body)])%list [])
        as (c' & s' & Hrun & Hkeys & Hcat).
      { unfold keys in *. rewrite map_app. cbn [map fst].
        rewrite <- app_assoc. exact Hnd. }
      exists c', s'. split; [exact Hrun|]. split.
      * rewrite Hkeys. unfold keys. rewrite (map_app fst _ [_]).
        cbn [map fst]. now rewrite <- app_assoc.
      * rewrite Hcat. unfold values. rewrite !map_app, !concat_app. cbn.
        now rewrite !app_nil_r.
    + cbn [negb]. assert (Hfresh : ~ In cur (keys front)).
      { pose proof Hnd as Hnd'. unfold keys in Hnd'.
        rewrite map_app, <- app_assoc in Hnd'. cbn [map fst app] in Hnd'.
        apply NoDup_remove_2 in Hnd'. intros Hin. apply Hnd'.
        apply in_or_app. now left. }
      rewrite dict_append_last by assumption. cbn [bind].
      destruct (IH cur front (body ++ [l])%list)
        as (c' & s' & Hrun & Hkeys & Hcat).
      { unfold keys in *. rewrite map_app in *. exact Hnd. }
      exists c', s'. split; [exact Hrun|]. split.
      * rewrite Hkeys. unfold keys. rewrite !map_app. reflexivity.
      * rewrite Hcat. unfold values. rewrite !map_app, !concat_app. cbn.
        rewrite !app_nil_r, <- !app_assoc. reflexivity.
Qed.

(** [process_style_guide] never raises, and General is a key of its
    result. *)
Lemma process_style_guide_total (text : string) :
  exists guide,
    process_style_guide text = Ok guide /\ In "General" (keys guide).
Proof.
  unfold process_style_guide, scan_sections.
  destruct (for_each_scan_total (split LF text) "General" [("General", [])])
    as (cur & secs & Hrun & Hkeys); [now left|].
  change (for_each scan_step (split LF text) scan_init = Ok (cur, secs))
    in Hrun.
  rewrite Hrun. cbn [bind snd].
  eexists. split; [reflexivity|].
  unfold keys, dict_map. rewrite map_map. cbn [fst].
  apply (Hkeys "General"). now left.
Qed.

Lemma process_style_guide_no_header (text : string) :
  (forall line, In line (split LF text) -> is_header line = false) ->
  process_style_guide text = Ok [("General", text)].
Proof.
  intros Hnone. unfold process_style_guide, scan_sections.
  pose proof (for_each_scan_no_header (split LF text) "General" [] []
                (fun H => H) Hnone) as Hrun.
  change (for_each scan_step (split LF text) scan_init
          = Ok ("General", [("General", split LF text)])) in Hrun.
  rewrite Hrun. cbn. now rewrite concat_split.
Qed.

End SectionizerFacts.

(** ** Facts about the header test on code points *)

Module CodePointsFacts.
Import CodePoints.
Local Open Scope list_scope.

Lemma existsb_false_iff {A : Type} (f : A -> bool) (l : list A) :
  existsb f l = false <-> forall x, In x l -> f x = false.
Proof.
  induction l as [|a r IH]; simpl.
  - split; [intros _ x [] | reflexivity].
  - rewrite orb_false_iff, IH. split.
    + intros [Ha Hr] x [<- | Hin]; auto.
    + intros H. split; [|intros x Hx]; apply H; auto.
Qed.

Section Generic.
Variable K : classes.
Hypothesis space_uncased :
  forall c, space K c = true ->
            upper K c = false /\ lower K c = false /\ title K c = false.

Lemma existsb_lstrip (q : N -> bool) (s : list N) :
  (forall c, space K c = true -> q c = false) ->
  existsb q (lstrip K s) = existsb q s.
Proof.
  intros Hq. induction s as [|c r IH]; [reflexivity|]. cbn [lstrip].
  destruct (space K c) eqn:Hc; [|reflexivity].
  cbn [existsb]. now rewrite IH, (Hq c Hc).
Qed.

Lemma existsb_rstrip (q : N -> bool) (s : list N) :
  (forall c, space K c = true -> q c = false) ->
  existsb q (rstrip K s) = existsb q s.
Proof.
  intros Hq. induction s as [|c r IH]; [reflexivity|]. cbn [rstrip existsb].
  rewrite <- IH. destruct (rstrip K r) as [|b r'].
  - destruct (space K c) eqn:Hc; cbn [existsb].
    + now rewrite (Hq c Hc).
    + reflexivity.
  - reflexivity.
Qed.

Lemma points_isupper_strip (line : list N) :
  isupper K (strip K line) = isupper K line.
Proof.
  unfold isupper, strip.
  rewrite !existsb_rstrip, !existsb_lstrip; try reflexivity;
    intros c Hc; destruct (space_uncased c Hc) as (Hu & Hl & Ht);
    try exact Hu; now rewrite Hl, Ht.
Qed.

Lemma points_endswith_iff (c : N) (s : list N) :
  endswith c s = true <-> exists body, s = body ++ [c].
Proof.
  induction s as [|a r IH].
  - split; [discriminate|]. intros ([|b body] & H); discriminate.
  - destruct r as [|a' r'].
    + cbn. split.
      * intros H%N.eqb_eq. subst. now exists [].
      * intros ([|b [|b' body]] & H); inversion H; subst; apply N.eqb_refl.
    + change (endswith c (a :: a' :: r')) with (endswith c (a' :: r')).
      rewrite IH. split.
      * intros (body & ->). now exists (a :: body).
      * intros ([|b body] & H); inversion H. now exists body.
Qed.

(** The header test is the cased rule or the colon rule, whatever the
    classes, as long as whitespace is not cased. *)
Lemma is_header_cased (line : list N) :
  is_header K line = true <-> rule_cased K line \/ rule_colon K line.
Proof.
  unfold is_header, rule_colon.
  rewrite orb_true_iff, points_endswith_iff, <- points_isupper_strip.
  unfold isupper, rule_cased.
  rewrite andb_true_iff, negb_true_iff, existsb_false_iff, existsb_exists.
  split.
  - intros [[Hlow Hup] | Hc]; [left | now right]. split; [exact Hup|].
    intros c Hin. apply orb_false_iff, Hlow, Hin.
  - intros [[Hup Hall] | Hc]; [left | now right]. split; [|exact Hup].
    intros c Hin. apply orb_false_iff, Hall, Hin.
Qed.
End Generic.

Lemma between_true (lo hi c : N) :
  between lo hi c = true <-> (lo <= c /\ c <= hi)%N.
Proof. unfold between. now rewrite andb_true_iff, !N.leb_le. Qed.

Lemma between_false (lo hi c : N) :
  between lo hi c = false <-> (c < lo \/ hi < c)%N.
Proof. unfold between. now rewrite andb_false_iff, !N.leb_gt. Qed.

Lemma cpython_space_uncased (c : N) :
  space cpython c = true ->
  upper cpython c = false /\ lower cpython c = false
  /\ title cpython c = false.
Proof.
  cbn [space upper lower title cpython].
  rewrite !orb_true_iff, !orb_false_iff, !between_true, !between_false,
    !N.eqb_eq, !N.eqb_neq.
  lia.
Qed.

End CodePointsFacts.

(** ** The sectionizer: header lines *)

Section HeaderLines.
Import StyleGuideProcessor SectionizerSpec SectionizerFacts Samples.
Local Open Scope list_scope.

Lemma isupper_strip (line : string) : isupper (strip line) = isupper line.
Proof.
  unfold isupper, strip.
  rewrite (str_existsb_strip_by is_space _ is_space_not_lower).
  now rewrite (str_existsb_strip_by is_space _ is_space_not_upper).
Qed.

Lemma isupper_rule (line : string) :
  isupper line = true <-> rule_cased line.
Proof.
  rewrite <- isupper_strip. unfold isupper, rule_cased.
  generalize (strip line) as s. intros s.
  rewrite andb_true_iff, negb_true_iff, str_existsb_false, str_existsb_exists.
  split.
  - intros [Hlow Hup]. split; [exact Hup|].
    intros c Hin. apply orb_false_iff, Hlow, Hin.
  - intros [Hup Hall]. split; [|exact Hup].
    intros c Hin. apply orb_false_iff, Hall, Hin.
Qed.

Lemma is_header_rules (line : string) :
  is_header line = true <-> rule_cased line \/ rule_colon line.
Proof.
  unfold is_header, rule_colon.
  now rewrite orb_true_iff, isupper_rule, endswith_iff.
Qed.

(** C5, as the code has it. A line is a header exactly when, without its
    surrounding whitespace, it has an upper-case character and no
    lower-case or title-case character, or when its trimmed text ends with
    a colon; so it is for a line of any code points, whatever the classes
    of characters, as long as whitespace is not cased. The name taken from
    a header is the trimmed text without its trailing colons. On a header
    the scan makes that name the current section and gives it an empty
    body; every other section keeps the body it had, so the header line
    enters no body. *)
Theorem header_line_classified (line : string) :
  (is_header line = true <-> rule_cased line \/ rule_colon line)
  /\ (forall K,
         (forall c, CodePoints.space K c = true ->
                    CodePoints.upper K c = false
                    /\ CodePoints.lower K c = false
                    /\ CodePoints.title K c = false) ->
         forall points,
           CodePoints.is_header K points = true <->
           CodePoints.rule_cased K points \/ CodePoints.rule_colon K points)
  /\ (exists colons,
        strip line = (header_name line ++ colons)%string
        /\ (forall c, In c (chars colons) -> c = colon)
        /\ endswith colon (header_name line) = false)
  /\ (forall cur sections,
        is_header line = true ->
        exists sections',
          scan_step (cur, sections) line = Ok (header_name line, sections')
          /\ forall k,
               dict_get k sections'
               = if String.eqb (header_name line) k then Some []
                 else dict_get k sections).
Proof.
  split; [apply is_header_rules|].
  split; [exact CodePointsFacts.is_header_cased|]. split.
  - destruct (rstrip_tail (Ascii.eqb colon) (strip line)) as (tail & Heq & Hall).
    exists tail. split; [exact Heq|]. split.
    + intros c Hin. symmetry. apply Ascii.eqb_eq. now apply Hall.
    + apply rstrip_not_endswith, Ascii.eqb_refl.
  - intros cur sections Hh. unfold scan_step. rewrite Hh.
    eexists. split; [reflexivity|]. intros k. apply dict_get_set.
Qed.

Lemma header_line_classified_witness :
  (is_header "  STYLE 2:: " = true
   /\ exists sections',
        scan_step ("General", [("General", ["intro"]); ("STYLE 2", ["old"])])
                  "  STYLE 2:: "
        = Ok ("STYLE 2", sections')
        /\ forall k,
             dict_get k sections'
             = if String.eqb "STYLE 2" k then Some []
               else dict_get k [("General", ["intro"]); ("STYLE 2", ["old"])])
  /\ (CodePoints.rule_cased CodePoints.cpython CodePoints.ideograph_capital
      \/ CodePoints.rule_colon CodePoints.cpython
           CodePoints.ideograph_capital).
Proof.
  split.
  - split; [reflexivity|].
    exact (proj2 (proj2 (proj2 (header_line_classified "  STYLE 2:: ")))
             "General" [("General", ["intro"]); ("STYLE 2", ["old"])]
             eq_refl).
  - exact (proj1 (proj1 (proj2 (header_line_classified ""))
                    CodePoints.cpython CodePointsFacts.cpython_space_uncased
                    CodePoints.ideograph_capital)
             eq_refl).
Defined.

(** C5 as stated fails beyond the 8-bit range. An ideograph followed by a
    capital is a header though one of its letters is not upper case; the
    Roman numeral four is a header though it has no letter; three capitals
    and a circled small letter are no header though every letter is upper
    case. *)
Lemma header_rule_misses_code_points :
  (CodePoints.is_header CodePoints.cpython CodePoints.ideograph_capital = true
   /\ ~ (CodePoints.rule_uppercase CodePoints.cpython
           CodePoints.ideograph_capital
         \/ CodePoints.rule_colon CodePoints.cpython
              CodePoints.ideograph_capital))
  /\ (CodePoints.is_header CodePoints.cpython CodePoints.roman_four = true
      /\ ~ (CodePoints.rule_uppercase CodePoints.cpython CodePoints.roman_four
            \/ CodePoints.rule_colon CodePoints.cpython
                 CodePoints.roman_four))
  /\ (CodePoints.is_header CodePoints.cpython CodePoints.capitals_circled
      = false
      /\ CodePoints.rule_uppercase CodePoints.cpython
           CodePoints.capitals_circled).
Proof.
  split; [|split].
  - split; [reflexivity|]. intros [[_ Hall] | (body & Hbody)].
    + specialize (Hall 0x4E2D%N (or_introl eq_refl) eq_refl). discriminate.
    + destruct body as [|? [|? [|? ?]]]; discriminate.
  - split; [reflexivity|]. intros [[(c & Hin & Hc) _] | (body & Hbody)].
    + destruct Hin as [<- | []]. discriminate.
    + destruct body as [|? [|? ?]]; discriminate.
  - split; [reflexivity|]. split.
    + exists 0x41%N. split; [now left | reflexivity].
    + intros c [<- | [<- | [<- | [<- | []]]]] Hc;
        (reflexivity || discriminate).
Qed.

(** C6. The scan never raises and its result has the key General; a text
    with no header line gives the one-entry mapping from General to the
    whole text. *)
Theorem general_section_present (text : string) :
  exists guide,
    process_style_guide text = Ok guide
    /\ In "General" (keys guide)
    /\ ((forall line, In line (split LF text) -> is_header line = false) ->
        guide = [("General", text)]).
Proof.
  destruct (process_style_guide_total text) as (guide & Hrun & Hin).
  exists guide. split; [exact Hrun|]. split; [exact Hin|].
  intros Hnone. rewrite (process_style_guide_no_header text Hnone) in Hrun.
  now inversion Hrun.
Qed.

Lemma general_section_present_witness :
  exists guide,
    process_style_guide ("be brief" ++ nl ++ "be kind")%string = Ok guide
    /\ In "General" (keys guide)
    /\ guide = [("General", ("be brief" ++ nl ++ "be kind")%string)].
Proof.
  destruct (general_section_present ("be brief" ++ nl ++ "be kind")%string)
    as (guide & Hrun & Hin & Hall).
  exists guide. split; [exact Hrun|]. split; [exact Hin|].
  apply Hall. intros line [<- | [<- | []]]; reflexivity.
Defined.

(** C1, as the code has it. When the header names of the text differ from
    one another and from General, the scan never raises, the sections are
    General and then the header names in the order of the text, and their
    bodies are the newline-joins of groups of lines which, put end to end,
    are exactly the lines of the text that are not headers, in their
    order. *)
Theorem bodies_reconstruct_lines (text : string) :
  NoDup ("General" :: header_names text) ->
  exists guide,
    process_style_guide text = Ok guide
    /\ keys guide = "General" :: header_names text
    /\ Reconstructs guide (nonheader_lines text).
Proof.
  intros Hnd. unfold process_style_guide, scan_sections.
  destruct (for_each_scan_distinct (split LF text) "General" [] [])
    as (cur & secs & Hrun & Hkeys & Hcat); [exact Hnd|].
  change (for_each scan_step (split LF text) scan_init = Ok (cur, secs))
    in Hrun.
  rewrite Hrun. cbn [bind snd].
  eexists. split; [reflexivity|]. split.
  - unfold keys, dict_map. rewrite map_map. cbn [fst]. exact Hkeys.
  - exists (values secs). split.
    + unfold values, dict_map. rewrite !map_map. reflexivity.
    + rewrite Hcat. reflexivity.
Qed.

Lemma bodies_reconstruct_lines_witness :
  NoDup ("General" :: header_names two_sections)
  /\ exists guide,
       process_style_guide two_sections = Ok guide
       /\ keys guide = ["General"; "TONE"; "Rules"]
       /\ Reconstructs guide ["intro"; "be kind"; ""; "one"].
Proof.
  assert (Hnd : NoDup ("General" :: header_names two_sections)).
  { vm_compute. repeat constructor; simpl; intuition discriminate. }
  split; [exact Hnd|].
  exact (bodies_reconstruct_lines two_sections Hnd).
Defined.

(** C1 as stated fails: a header named General starts the section anew, and
    the line before it is in no body. *)
Lemma bodies_lose_lines :
  process_style_guide general_twice = Ok [("General", "b")]
  /\ nonheader_lines general_twice = ["a"; "b"]
  /\ ~ Reconstructs [("General", "b")] (nonheader_lines general_twice).
Proof.
  split; [reflexivity|]. split; [reflexivity|].
  intros (groups & Hbodies & Hcat).
  destruct groups as [|g [|g' gs]]; try discriminate.
  cbn in Hbodies, Hcat. rewrite app_nil_r in Hcat. subst g.
  discriminate.
Qed.

End HeaderLines.

(** ** The brace pattern *)

Lemma upto_last_find (c : ascii) (s : string) :
  upto_last c s
  = match find_last c s with
    | Some j => Some (substring 0 (j + 1) s)
    | None => None
    end.
Proof.
  induction s as [|a r IH]; [reflexivity|]. simpl. rewrite IH.
  destruct (find_last c r) as [j|]; [reflexivity|].
  destruct (Ascii.eqb a c); [|reflexivity].
  destruct r; reflexivity.
Qed.

Lemma re_search_no_close (s : string) :
  find_last "}"%char s = None -> re_search_braces s = None.
Proof.
  induction s as [|a r IH]; [reflexivity|]. simpl.
  destruct (find_last "}"%char r) as [j|] eqn:Hr; [discriminate|].
  intros _. rewrite upto_last_find, Hr.
  destruct (Ascii.eqb a "{"%char); now apply IH.
Qed.

Lemma find_first_open_close (a : ascii) :
  Ascii.eqb a "{"%char = true -> Ascii.eqb a "}"%char = false.
Proof. intros ->%Ascii.eqb_eq. reflexivity. Qed.

(** The search of the pattern is the span from the first opening brace to
    the last closing brace. *)
Lemma re_search_braces_span (s : string) :
  re_search_braces s = first_to_last_brace s.
Proof.
  unfold first_to_last_brace.
  induction s as [|a r IH]; [reflexivity|].
  cbn [re_search_braces match_braces_at find_first find_last].
  rewrite upto_last_find.
  destruct (Ascii.eqb a "{"%char) eqn:Ha.
  - rewrite (find_first_open_close a Ha).
    destruct (find_last "}"%char r) as [j|] eqn:Hr.
    + cbn [Nat.ltb Nat.leb].
      replace (S j - 0 + 1) with (S (j + 1)) by lia. reflexivity.
    + now apply re_search_no_close.
  - rewrite IH.
    destruct (find_first "{"%char r) as [i|]; cbn [option_map].
    + destruct (find_last "}"%char r) as [j|].
      * change (Nat.ltb (S i) (S j)) with (Nat.ltb i j).
        destruct (Nat.ltb i j); reflexivity.
      * destruct (Ascii.eqb a "}"%char); reflexivity.
    + destruct (find_last "}"%char r); [reflexivity|].
      destruct (Ascii.eqb a "}"%char); reflexivity.
Qed.

(** ** The response pipeline *)

Section ResponsePipeline.
Import TextAnalyzer.
Variable json_loads : string -> py_result json.

Lemma parse_attempts_direct (raw : string) (v : json) :
  json_loads raw = Ok v -> parse_attempts json_loads raw = Ok (Some v).
Proof. intros H. unfold parse_attempts. now rewrite H. Qed.

Lemma parse_attempts_span (raw span : string) (e : exn) (v : json) :
  json_loads raw = Raise e ->
  exn_cls e = JSONDecodeError ->
  re_search_braces raw = Some span ->
  json_loads span = Ok v ->
  parse_attempts json_loads raw = Ok (Some v).
Proof.
  intros H1 Hc Hs H2. unfold parse_attempts.
  rewrite H1. cbn. rewrite Hc. cbn. now rewrite Hs, H2.
Qed.

Lemma analyze_text_answered (self : t) (text content_type : string)
    (content : py_value) (r : option json) :
  client self (analysis_request self text content_type) = Ok content ->
  parse_attempts json_loads (py_str content) = Ok r ->
  analyze_text json_loads self text content_type
  = Ok match r with
       | Some v => v
       | None => fallback_response text
       end.
Proof.
  intros Hc Hp. unfold analyze_text. rewrite Hc. cbn. rewrite Hp.
  destruct r; reflexivity.
Qed.

(** C3. The text of the response is decoded as it is, with no cleaning
    first, and a value so decoded is returned unchanged. When that decoding
    fails, the span from the first opening brace to the last closing brace
    is what the pattern search finds, and a value decoded from it is
    returned. *)
Theorem direct_then_brace_span (self : t) (text content_type : string)
    (content : py_value) :
  client self (analysis_request self text content_type) = Ok content ->
  (forall v,
      json_loads (py_str content) = Ok v ->
      analyze_text json_loads self text content_type = Ok v)
  /\ (forall e span v,
         json_loads (py_str content) = Raise e ->
         exn_cls e = JSONDecodeError ->
         first_to_last_brace (py_str content) = Some span ->
         json_loads span = Ok v ->
         analyze_text json_loads self text content_type = Ok v).
Proof.
  intros Hc. split.
  - intros v Hv.
    exact (analyze_text_answered self text content_type content (Some v)
             Hc (parse_attempts_direct _ _ Hv)).
  - intros e span v He Hcls Hspan Hv.
    rewrite <- re_search_braces_span in Hspan.
    exact (analyze_text_answered self text content_type content (Some v)
             Hc (parse_attempts_span _ _ _ _ He Hcls Hspan Hv)).
Qed.

(** C4, as the code has it. When decoding the text of the response raises
    a decoding error and the second attempt fails as well (the pattern
    finds no span, or decoding the span raises a decoding error or an
    attribute error), the call returns the fallback object: the fixed
    assessment, an evaluation made of the first 100 characters of the
    content under analysis followed by three dots, and three fixed
    suggestions. *)
Theorem both_attempts_fail_fallback (self : t) (text content_type : string)
    (content : py_value) (e : exn) :
  client self (analysis_request self text content_type) = Ok content ->
  json_loads (py_str content) = Raise e ->
  exn_cls e = JSONDecodeError ->
  (re_search_braces (py_str content) = None
   \/ exists span e',
        re_search_braces (py_str content) = Some span
        /\ json_loads span = Raise e'
        /\ (exn_cls e' = JSONDecodeError \/ exn_cls e' = AttributeError)) ->
  analyze_text json_loads self text content_type
  = Ok (JDict [
      ("overall_assessment", JStr "Analysis completed with formatting issues.");
      ("style_evaluation",
       JStr ("Content analyzed: " ++ take 100 text ++ "..."));
      ("suggestions", JList [
         JStr "Consider reviewing the content for clarity";
         JStr "Ensure all key points are clearly communicated";
         JStr "Review formatting and structure"])]).
Proof.
  intros Hc He Hcls Hsecond.
  apply (analyze_text_answered self text content_type content None Hc).
  unfold parse_attempts. rewrite He. cbn. rewrite Hcls. cbn.
  destruct Hsecond as [-> | (span & e' & -> & -> & [Hcls' | Hcls'])].
  - reflexivity.
  - cbn. now rewrite Hcls'.
  - cbn. now rewrite Hcls'.
Qed.

(** C8. When the remote call raises, [analyze_text] returns the degraded
    object, whose assessment carries the message of the exception, and
    [generate_text] returns the fixed failure message. *)
Theorem remote_failure_degrades (self : t) (text prompt content_type : string)
    (e : exn) :
  (client self (analysis_request self text content_type) = Raise e ->
   analyze_text json_loads self text content_type
   = Ok (JDict [
       ("overall_assessment", JStr ("Analysis error: " ++ exn_msg e));
       ("style_evaluation", JStr "Unable to complete style evaluation");
       ("suggestions", JList [
          JStr "Please try again in a moment";
          JStr "Consider breaking content into smaller sections"])]))
  /\ (client self (generation_request self prompt content_type) = Raise e ->
      fst (generate_text self prompt content_type)
      = Ok "Content generation failed. Please try again.").
Proof.
  split; intros Hc.
  - unfold analyze_text. now rewrite Hc.
  - unfold generate_text. now rewrite Hc.
Qed.

(** C2, as the code has it. Neither call raises. [analyze_text] returns an
    object with the three fields (the fallback or the degraded one), or
    else a value the decoder gave for the text of the response or for its
    brace span, passed on as it is. [generate_text] returns a string. *)
Theorem analyze_generate_return (self : t)
    (text prompt content_type : string) :
  (exists v,
      analyze_text json_loads self text content_type = Ok v
      /\ (is_analysis_result v = true
          \/ exists content s,
               client self (analysis_request self text content_type)
               = Ok content
               /\ (s = py_str content
                   \/ re_search_braces (py_str content) = Some s)
               /\ json_loads s = Ok v))
  /\ exists s, fst (generate_text self prompt content_type) = Ok s.
Proof.
  split.
  - unfold analyze_text, parse_attempts.
    destruct (client self (analysis_request self text content_type))
      as [content|e] eqn:Hc; cbn; [|eauto].
    destruct (json_loads (py_str content)) as [v|e] eqn:H1; cbn.
    { exists v. split; [reflexivity|]. right. exists content, (py_str content).
      auto. }
    destruct (exn_class_eqb (exn_cls e) JSONDecodeError); cbn; [|eauto].
    destruct (re_search_braces (py_str content)) as [span|] eqn:Hs; cbn;
      [|eauto].
    destruct (json_loads span) as [v|e'] eqn:H2; cbn.
    { exists v. split; [reflexivity|]. right. exists content, span. auto. }
    destruct (exn_class_eqb (exn_cls e') JSONDecodeError
              || (exn_class_eqb (exn_cls e') AttributeError || false));
      cbn; eauto.
  - unfold generate_text.
    destruct (client self (generation_request self prompt content_type));
      cbn; eauto.
Qed.

End ResponsePipeline.

(** ** Sample runs of the response pipeline *)

Section SampleRuns.
Import TextAnalyzer Samples.

Lemma direct_then_brace_span_witness :
  analyze_text loads (answering (PyContainer "[]") []) "Hello team" "Email"
  = Ok (JList [])
  /\ analyze_text loads (answering (PyContainer wrapped_text) [])
       "Hello team" "Email"
     = Ok object_value.
Proof.
  split.
  - exact (proj1 (direct_then_brace_span loads
                    (answering (PyContainer "[]") []) "Hello team" "Email"
                    (PyContainer "[]") eq_refl)
             (JList []) eq_refl).
  - exact (proj2 (direct_then_brace_span loads
                    (answering (PyContainer wrapped_text) [])
                    "Hello team" "Email" (PyContainer wrapped_text) eq_refl)
             (mk_exn JSONDecodeError
                     "Expecting value: line 1 column 1 (char 0)")
             object_text object_value eq_refl eq_refl eq_refl eq_refl).
Defined.

Lemma both_attempts_fail_fallback_witness :
  json_field "style_evaluation"
    match analyze_text loads (answering (PyContainer no_json_text) [])
            long_content "Email" with
    | Ok v => v
    | Raise _ => JNull
    end
  = Some (JStr ("Content analyzed: "
                ++ "01234567890123456789012345678901234567890123456789"
                ++ "01234567890123456789012345678901234567890123456789"
                ++ "...")).
Proof.
  rewrite (both_attempts_fail_fallback loads
             (answering (PyContainer no_json_text) []) long_content "Email"
             (PyContainer no_json_text)
             (mk_exn JSONDecodeError
                     "Expecting value: line 1 column 1 (char 0)")
             eq_refl eq_refl eq_refl (or_introl eq_refl)).
  reflexivity.
Defined.

Lemma remote_failure_degrades_witness :
  json_field "overall_assessment"
    match analyze_text loads (failing connection_error [])
            "Hello team" "Email" with
    | Ok v => v
    | Raise _ => JNull
    end
  = Some (JStr "Analysis error: Connection error.")
  /\ fst (generate_text (failing connection_error []) "a reminder" "Email")
     = Ok "Content generation failed. Please try again.".
Proof.
  destruct (remote_failure_degrades loads (failing connection_error [])
              "Hello team" "a reminder" "Email" connection_error)
    as [Han Hgen].
  split.
  - rewrite (Han eq_refl). reflexivity.
  - exact (Hgen eq_refl).
Defined.

(** C2 as stated fails: an empty list of content blocks has the text of an
    empty array, which decodes, and the decoded list is returned; it has
    none of the three fields. *)
Lemma decoded_value_not_a_result :
  analyze_text loads (answering (PyContainer "[]") []) "Hello team" "Email"
  = Ok (JList [])
  /\ is_analysis_result (JList []) = false.
Proof. split; reflexivity. Qed.

End SampleRuns.

(** ** Prompts and the stored style guide *)

Section StoredGuide.
Import TextAnalyzer Samples.

(** What one section is shown as: its name, a colon and a space, the first
    300 characters of its body (the whole body when it is shorter), and
    three dots. *)
Definition shown_as (kv : string * string) (line : string) : Prop :=
  exists first rest,
    snd kv = first ++ rest
    /\ String.length first = Nat.min 300 (String.length (snd kv))
    /\ line = fst kv ++ ": " ++ first ++ "...".

Lemma render_section_shown (kv : string * string) :
  shown_as kv (render_section kv).
Proof.
  destruct (take_prefix 300 (snd kv)) as (rest & Hrest).
  exists (take 300 (snd kv)), rest. split; [exact Hrest|].
  split; [apply take_length | reflexivity].
Qed.

Lemma render_sections_shown (guide : dict string) :
  Forall2 shown_as guide (map render_section guide).
Proof.
  induction guide as [|kv r IH]; constructor;
    [apply render_section_shown | exact IH].
Qed.

(** C9. In the prompt of either call the style guide is rendered as the
    placeholder when the stored guide is empty, and otherwise as one line
    per section, in the order of the guide, joined by newlines: the name, a
    colon and a space, the first 300 characters of the body, and three
    dots; a body shorter than 300 characters is followed by the three dots
    all the same. *)
Theorem style_context_rendered (self : t) (text prompt content_type : string) :
  let guide := style_guide self in
  let context := style_guide_context guide in
  (guide = [] -> context = "No style guide loaded.")
  /\ (guide <> [] ->
      exists lines,
        context = String.concat nl lines /\ Forall2 shown_as guide lines)
  /\ (forall k v line,
         String.length v < 300 ->
         shown_as (k, v) line -> line = k ++ ": " ++ v ++ "...")
  /\ (exists before after,
         messages (analysis_request self text content_type)
         = [mk_message "user" (before ++ context ++ after)])
  /\ (exists before after,
         messages (generation_request self prompt content_type)
         = [mk_message "user" (before ++ context ++ after)]).
Proof.
  intros guide context. subst context. repeat split.
  - intros ->. reflexivity.
  - intros Hne. exists (map render_section guide).
    split; [|apply render_sections_shown].
    destruct guide; [congruence | reflexivity].
  - intros k v line Hlen (first & rest & Hsplit & Hfirst & ->).
    cbn [fst snd] in *. rewrite Nat.min_r in Hfirst by lia.
    assert (Hrest : rest = "").
    { apply (f_equal String.length) in Hsplit.
      rewrite append_length, Hfirst in Hsplit.
      destruct rest; [reflexivity | simpl in Hsplit; lia]. }
    subst rest. rewrite append_nil_r in Hsplit. now subst first.
  - unfold analysis_request, analysis_prompt, user_message. cbn [messages].
    do 2 eexists. do 2 f_equal.
    refine (concat_around
              [_; _; _; _; _; _; _; _; _; _; _; _] [_; _; _] "        " _ _).
    discriminate.
  - unfold generation_request, generation_prompt, user_message.
    cbn [messages]. do 2 eexists. do 2 f_equal.
    refine (concat_around
              [_; _; _] [_; _; _; _; _; _; _; _; _] "        " _ _).
    discriminate.
Qed.

Lemma style_context_rendered_witness :
  exists lines,
    style_guide_context [("General", "intro"); ("TONE", "be kind")]
    = String.concat nl lines
    /\ Forall2 shown_as [("General", "intro"); ("TONE", "be kind")] lines.
Proof.
  exact (proj1 (proj2 (style_context_rendered
                         (mk (fun _ => Ok (PyStr ""))
                             [("General", "intro"); ("TONE", "be kind")])
                         "" "" "Email"))
           ltac:(discriminate)).
Defined.

(** C10. When the text of the document is extracted, the stored guide
    becomes the guide made from that text, and a name that is not a section
    of the new guide is not in the stored guide, whatever was stored
    before. When extraction raises, the exception reaches the caller and
    the stored guide is the one stored before. *)
Theorem load_replaces_or_keeps (self : t)
    (pdf : StyleGuideProcessor.pdf_file) :
  (forall text,
      StyleGuideProcessor.extract_pdf_text pdf = Ok text ->
      exists guide,
        StyleGuideProcessor.process_style_guide text = Ok guide
        /\ load_style_guide self pdf = (mk (client self) guide, Ok guide)
        /\ forall k,
             ~ In k (keys guide) ->
             dict_get k (style_guide (fst (load_style_guide self pdf))) = None)
  /\ (forall e,
         StyleGuideProcessor.extract_pdf_text pdf = Raise e ->
         load_style_guide self pdf = (self, Raise e)
         /\ style_guide (fst (load_style_guide self pdf)) = style_guide self).
Proof.
  split.
  - intros text Htext.
    destruct (SectionizerFacts.process_style_guide_total text)
      as (guide & Hguide & _).
    exists guide. unfold load_style_guide. rewrite Htext, Hguide.
    split; [reflexivity|]. split; [reflexivity|].
    intros k Hk. cbn. now apply dict_get_absent.
  - intros e He. unfold load_style_guide. rewrite He. split; reflexivity.
Qed.

Lemma load_replaces_or_keeps_witness :
  (style_guide
     (fst (load_style_guide (mk (fun _ => Ok (PyStr "")) old_guide)
             new_document))
   = [("General", ""); ("TONE", "be kind" ++ nl)]
   /\ dict_get "VOICE"
        (style_guide
           (fst (load_style_guide (mk (fun _ => Ok (PyStr "")) old_guide)
                   new_document)))
      = None)
  /\ style_guide
       (fst (load_style_guide (mk (fun _ => Ok (PyStr "")) old_guide)
               broken_document))
     = old_guide.
Proof.
  split.
  - destruct (proj1 (load_replaces_or_keeps
                       (mk (fun _ => Ok (PyStr "")) old_guide) new_document)
                ("TONE" ++ nl ++ "be kind" ++ nl) eq_refl)
      as (guide & Hguide & Hload & Habsent).
    split.
    + rewrite Hload. cbn. now inversion Hguide.
    + apply Habsent. inversion Hguide. cbn.
      intros [H | [H | []]]; discriminate.
  - exact (proj2 (proj2 (load_replaces_or_keeps
                           (mk (fun _ => Ok (PyStr "")) old_guide)
                           broken_document)
                    (mk_exn OtherException "EOF marker not found") eq_refl)).
Defined.

End StoredGuide.

(** ** Cleaning a response *)

Section StripEnds.
Variable p : ascii -> bool.

Lemma lstrip_begins (s : string) : begins p (lstrip p s) = false.
Proof.
  induction s as [|c r IH]; [reflexivity|]. simpl.
  destruct (p c) eqn:Hp; [exact IH | exact Hp].
Qed.

Lemma lstrip_fixed (s : string) : begins p s = false -> lstrip p s = s.
Proof. destruct s as [|c r]; simpl; [reflexivity | now intros ->]. Qed.

Lemma lstrip_shorter (s : string) :
  begins p s = true -> String.length (lstrip p s) < String.length s.
Proof.
  destruct s as [|c r]; simpl; [discriminate|]. intros ->.
  pose proof (lstrip_length p r). lia.
Qed.

Lemma rstrip_cons (c : ascii) (r : string) :
  rstrip p r <> "" -> rstrip p (String c r) = String c (rstrip p r).
Proof. simpl. destruct (rstrip p r); [congruence | reflexivity]. Qed.

Lemma rstrip_ends (s : string) : ends p (rstrip p s) = false.
Proof.
  induction s as [|c r IH]; [reflexivity|]. simpl.
  destruct (rstrip p r) as [|b r'] eqn:Hr.
  - destruct (p c) eqn:Hp; [reflexivity | exact Hp].
  - exact IH.
Qed.

Lemma rstrip_fixed (s : string) : ends p s = false -> rstrip p s = s.
Proof.
  induction s as [|c r IH]; [reflexivity|]. intros He.
  destruct r as [|b r'].
  - simpl in *. now rewrite He.
  - rewrite rstrip_cons; rewrite IH by exact He; [reflexivity|discriminate].
Qed.

Lemma rstrip_shorter (s : string) :
  ends p s = true -> String.length (rstrip p s) < String.length s.
Proof.
  induction s as [|c r IH]; [discriminate|]. intros He.
  destruct r as [|b r'].
  - simpl in *. rewrite He. simpl. lia.
  - specialize (IH He).
    change (rstrip p (String c (String b r')))
      with (match rstrip p (String b r') with
            | "" => if p c then "" else String c ""
            | String x w => String c (String x w)
            end).
    remember (rstrip p (String b r')) as w eqn:Hw. clear Hw.
    cbn [String.length] in *.
    destruct w; [destruct (p c)|]; cbn [String.length] in *; lia.
Qed.

Lemma rstrip_begins (s : string) :
  begins p s = false -> begins p (rstrip p s) = false.
Proof.
  destruct s as [|c r]; [reflexivity|]. simpl. intros Hc.
  destruct (rstrip p r); [rewrite Hc|]; simpl; auto.
Qed.

Lemma strip_by_ends_clear (s : string) :
  begins p (strip_by p s) = false /\ ends p (strip_by p s) = false.
Proof.
  unfold strip_by. split.
  - apply rstrip_begins, lstrip_begins.
  - apply rstrip_ends.
Qed.

Lemma strip_by_fixed (s : string) :
  begins p s = false -> ends p s = false -> strip_by p s = s.
Proof.
  intros Hb He. unfold strip_by. now rewrite lstrip_fixed, rstrip_fixed.
Qed.

Lemma strip_by_length (s : string) :
  String.length (strip_by p s) <= String.length s.
Proof.
  unfold strip_by. pose proof (rstrip_length p (lstrip p s)).
  pose proof (lstrip_length p s). lia.
Qed.

Lemma strip_by_shorter (s : string) :
  begins p s || ends p s = true ->
  String.length (strip_by p s) < String.length s.
Proof.
  unfold strip_by. intros H. destruct (begins p s) eqn:Hb.
  - pose proof (lstrip_shorter s Hb).
    pose proof (rstrip_length p (lstrip p s)). lia.
  - rewrite lstrip_fixed by exact Hb. apply rstrip_shorter. exact H.
Qed.
End StripEnds.

Section Occurrences.
Variable pat : string.

Lemma prefix_append (a b : string) :
  prefix pat a = true -> prefix pat (a ++ b) = true.
Proof.
  revert a. induction pat as [|x q IH]; intros a.
  { intros _. destruct (a ++ b); reflexivity. }
  destruct a as [|y a]; simpl; [discriminate|].
  destruct (ascii_dec x y); [apply IH | discriminate].
Qed.

Lemma occurs_append (a b : string) :
  occurs pat a = true -> occurs pat (a ++ b) = true.
Proof.
  induction a as [|y a IH].
  - simpl. rewrite orb_false_r. intros H.
    destruct pat; [|discriminate]. destruct b; reflexivity.
  - intros H. change (String y a ++ b) with (String y (a ++ b)).
    cbn [occurs] in *. apply orb_true_iff in H. apply orb_true_iff.
    destruct H as [H | H].
    + left. exact (prefix_append (String y a) b H).
    + right. now apply IH.
Qed.

Lemma occurs_lstrip (p : ascii -> bool) (s : string) :
  occurs pat s = false -> occurs pat (lstrip p s) = false.
Proof.
  induction s as [|c r IH]; [auto|]. intros H. simpl lstrip.
  destruct (p c); [|exact H].
  apply IH. cbn [occurs] in H. now apply orb_false_iff in H.
Qed.

Lemma occurs_rstrip (p : ascii -> bool) (s : string) :
  occurs pat s = false -> occurs pat (rstrip p s) = false.
Proof.
  intros H. destruct (occurs pat (rstrip p s)) eqn:Ho; [|reflexivity].
  destruct (rstrip_tail p s) as (tail & Heq & _).
  apply (occurs_append _ tail) in Ho. rewrite <- Heq in Ho. congruence.
Qed.

Lemma occurs_strip_by (p : ascii -> bool) (s : string) :
  occurs pat s = false -> occurs pat (strip_by p s) = false.
Proof. intros H. now apply occurs_rstrip, occurs_lstrip. Qed.

(** Replacing a text that does not occur changes nothing. *)
Lemma replace_absent (new s : string) :
  occurs pat s = false -> replace pat new s = s.
Proof.
  unfold replace. induction s as [|c r IH]; [reflexivity|].
  cbn [occurs]. intros [Hp Hr]%orb_false_iff.
  cbn [replace_from]. rewrite Hp, IH by exact Hr. reflexivity.
Qed.
End Occurrences.

Section CleanTwice.
Import ContentFormatter Samples.

Lemma marker_free_spec (x : string) :
  marker_free x = true <->
  occurs block_open x = false /\ occurs block_close x = false
  /\ occurs escaped_n x = false /\ occurs escaped_r x = false.
Proof.
  unfold marker_free. rewrite !andb_true_iff, !negb_true_iff. tauto.
Qed.

(** Without markers and escapes only the two strippings act. *)
Lemma clean_text_plain (x : string) :
  marker_free x = true ->
  clean_text (PyStr x) = strip (strip_by is_quote x).
Proof.
  intros (H1 & H2 & H3 & H4)%marker_free_spec. unfold clean_text, py_str.
  now rewrite (replace_absent _ _ _ H1), (replace_absent _ _ _ H2),
    (replace_absent _ _ _ H3), (replace_absent _ _ _ H4).
Qed.

Lemma clean_text_marker_free (x : string) :
  marker_free x = true -> marker_free (clean_text (PyStr x)) = true.
Proof.
  intros Hx. rewrite (clean_text_plain x Hx).
  apply marker_free_spec in Hx as (H1 & H2 & H3 & H4).
  apply marker_free_spec. unfold strip.
  repeat split; now do 2 apply occurs_strip_by.
Qed.

(** C7, as the code has it. For a text with no wrapper marker and no escape
    sequence, cleaning the cleaned text gives the cleaned text again
    exactly when the cleaned text neither begins nor ends with a quote
    character. *)
Theorem clean_text_twice (x : string) :
  marker_free x = true ->
  (clean_text (PyStr (clean_text (PyStr x))) = clean_text (PyStr x)
   <-> quoted_end (clean_text (PyStr x)) = false).
Proof.
  intros Hx. rewrite (clean_text_plain _ (clean_text_marker_free x Hx)).
  rewrite (clean_text_plain x Hx).
  set (y := strip (strip_by is_quote x)).
  destruct (strip_by_ends_clear is_space (strip_by is_quote x)) as [Hb He].
  fold (strip (strip_by is_quote x)) in Hb, He. fold y in Hb, He.
  unfold quoted_end. split.
  - intros Heq. destruct (begins is_quote y || ends is_quote y) eqn:Hq;
      [|reflexivity].
    pose proof (strip_by_shorter is_quote y Hq) as Hlt.
    pose proof (strip_by_length is_space (strip_by is_quote y)) as Hle.
    fold (strip (strip_by is_quote y)) in Hle. rewrite Heq in Hle. lia.
  - intros [Hqb Hqe]%orb_false_iff.
    rewrite (strip_by_fixed is_quote y Hqb Hqe).
    exact (strip_by_fixed is_space y Hb He).
Qed.

Lemma clean_text_twice_witness :
  clean_text (PyStr (clean_text (PyStr quoted_reply)))
  = clean_text (PyStr quoted_reply).
Proof.
  exact (proj2 (clean_text_twice quoted_reply eq_refl) eq_refl).
Defined.

(** C7 as stated fails: the outer quotes go first and the whitespace next,
    which leaves the inner quotes for the second cleaning. *)
Lemma clean_text_not_idempotent :
  marker_free nested_quotes = true
  /\ clean_text (PyStr nested_quotes) = "'quoted draft'"
  /\ clean_text (PyStr (clean_text (PyStr nested_quotes))) = "quoted draft"
  /\ clean_text (PyStr (clean_text (PyStr nested_quotes)))
     <> clean_text (PyStr nested_quotes).
Proof. repeat split; try reflexivity. discriminate. Qed.

End CleanTwice.

(** ** More on the sectionizer: keys and bodies *)

Section DictMore.
Context {V : Type}.
Local Open Scope list_scope.

Lemma keys_set_iff (k k' : string) (v : V) (d : dict V) :
  In k' (keys (dict_set k v d)) <-> k' = k \/ In k' (keys d).
Proof.
  induction d as [|[a b] r IH]; simpl.
  - intuition congruence.
  - destruct (String.eqb_spec a k) as [->|Hak]; simpl.
    + intuition congruence.
    + rewrite IH. intuition congruence.
Qed.

Lemma keys_set_nodup (k : string) (v : V) (d : dict V) :
  NoDup (keys d) -> NoDup (keys (dict_set k v d)).
Proof.
  induction d as [|[a b] r IH]; simpl; intros Hnd.
  - constructor; [intros [] | constructor].
  - destruct (String.eqb_spec a k) as [->|Hak]; simpl; [exact Hnd|].
    inversion Hnd as [|? ? Hnotin Hr]; subst. constructor.
    + rewrite keys_set_iff. intros [-> | Hin]; [congruence | tauto].
    + now apply IH.
Qed.

Lemma keys_set_head (k : string) (v : V) (d : dict V) :
  d <> [] -> hd_error (keys (dict_set k v d)) = hd_error (keys d).
Proof.
  destruct d as [|[a b] r]; [congruence|]. intros _. simpl.
  destruct (String.eqb a k); reflexivity.
Qed.

Lemma keys_append (k : string) (x : V) (d d' : dict (list V)) :
  dict_append k x d = Ok d' -> keys d' = keys d.
Proof.
  revert d'. induction d as [|[a b] r IH]; simpl; intros d' H;
    [discriminate|].
  destruct (String.eqb a k).
  - now inversion H.
  - destruct (dict_append k x r) as [r'|e]; [|discriminate].
    inversion H; subst. simpl. now rewrite (IH r' eq_refl).
Qed.

Lemma dict_get_append (k k' : string) (x : V) (d d' : dict (list V)) :
  dict_append k x d = Ok d' ->
  dict_get k' d'
  = if String.eqb k k' then option_map (fun v => v ++ [x]) (dict_get k' d)
    else dict_get k' d.
Proof.
  revert d'. induction d as [|[a b] r IH]; simpl; intros d' H;
    [discriminate|].
  destruct (String.eqb_spec a k) as [->|Hak].
  - inversion H; subst. simpl.
    destruct (String.eqb k k'); reflexivity.
  - destruct (dict_append k x r) as [r'|e]; [|discriminate].
    inversion H; subst. simpl. rewrite (IH r' eq_refl).
    destruct (String.eqb_spec a k') as [->|Hak']; [|reflexivity].
    destruct (String.eqb_spec k k'); congruence.
Qed.

Lemma dict_get_in_keys (k : string) (v : V) (d : dict V) :
  dict_get k d = Some v -> In k (keys d).
Proof.
  induction d as [|[a b] r IH]; simpl; [discriminate|].
  destruct (String.eqb_spec a k); auto.
Qed.
End DictMore.

Lemma dict_get_map {V W : Type} (f : V -> W) (k : string) (d : dict V) :
  dict_get k (dict_map f d) = option_map f (dict_get k d).
Proof.
  induction d as [|[a b] r IH]; simpl; [reflexivity|].
  destruct (String.eqb a k); [reflexivity | exact IH].
Qed.

Lemma keys_map {V W : Type} (f : V -> W) (d : dict V) :
  keys (dict_map f d) = keys d.
Proof. unfold keys, dict_map. rewrite map_map. reflexivity. Qed.

Lemma for_each_app {A S : Type} (step : S -> A -> py_result S)
    (xs ys : list A) (s : S) :
  for_each step (xs ++ ys)%list s
  = (s' <- for_each step xs s ;; for_each step ys s').
Proof.
  revert s. induction xs as [|x xs IH]; intros s; simpl; [reflexivity|].
  destruct (step s x); simpl; [apply IH | reflexivity].
Qed.

Section ScanMore.
Import StyleGuideProcessor SectionizerSpec SectionizerFacts.
Local Open Scope list_scope.

Lemma scan_keys (lines : list string) :
  forall cur secs,
    In cur (keys secs) ->
    NoDup (keys secs) ->
    exists cur' secs',
      for_each scan_step lines (cur, secs) = Ok (cur', secs')
      /\ NoDup (keys secs')
      /\ (forall k, In k (keys secs') <->
                    In k (keys secs)
                    \/ In k (map header_name (filter is_header lines)))
      /\ hd_error (keys secs') = hd_error (keys secs).
Proof.
  induction lines as [|l ls IH]; intros cur secs Hcur Hnd.
  - exists cur, secs. simpl. intuition.
  - cbn [for_each scan_step filter]. destruct (is_header l) eqn:Hl.
    + cbn [bind map].
      destruct (IH (header_name l) (dict_set (header_name l) [] secs))
        as (c' & s' & Hrun & Hnd' & Hin & Hhd);
        [apply keys_set_in | now apply keys_set_nodup|].
      exists c', s'. split; [exact Hrun|]. split; [exact Hnd'|]. split.
      * intros k. rewrite Hin, keys_set_iff. simpl. intuition congruence.
      * rewrite Hhd. apply keys_set_head. intros ->. destruct Hcur.
    + destruct (dict_append_in cur l secs Hcur) as (d' & Happ & Hkeys).
      rewrite Happ. cbn [bind].
      destruct (IH cur d') as (c' & s' & Hrun & Hnd' & Hin & Hhd);
        [now rewrite Hkeys | now rewrite Hkeys|].
      exists c', s'. split; [exact Hrun|]. split; [exact Hnd'|].
      rewrite Hkeys in Hin, Hhd. split; assumption.
Qed.

Section OneSection.
Variable name : string.

(** Lines that are not headers all go to the current section. *)
Lemma scan_run (body : list string) :
  forall secs b,
    dict_get name secs = Some b ->
    (forall l, In l body -> is_header l = false) ->
    exists secs',
      for_each scan_step body (name, secs) = Ok (name, secs')
      /\ dict_get name secs' = Some (b ++ body).
Proof.
  induction body as [|l ls IH]; intros secs b Hget Hall.
  - exists secs. simpl. now rewrite app_nil_r.
  - cbn [for_each scan_step]. rewrite (Hall l) by now left.
    destruct (dict_append_in name l secs (dict_get_in_keys _ _ _ Hget))
      as (d' & Happ & _).
    rewrite Happ. cbn [bind].
    destruct (IH d' (b ++ [l])) as (s' & Hrun & Hget').
    + rewrite (dict_get_append _ _ _ _ _ Happ), String.eqb_refl, Hget.
      reflexivity.
    + intros l' Hin. apply Hall. now right.
    + exists s'. split; [exact Hrun|]. now rewrite Hget', <- app_assoc.
Qed.

(** While another section is current and no header has the name, the
    body under the name stays as it is. *)
Lemma scan_keeps (b : list string) (after : list string) :
  forall cur secs,
    cur <> name ->
    In cur (keys secs) ->
    dict_get name secs = Some b ->
    (forall l, In l after -> is_header l = true -> header_name l <> name) ->
    exists cur' secs',
      for_each scan_step after (cur, secs) = Ok (cur', secs')
      /\ dict_get name secs' = Some b.
Proof.
  induction after as [|l ls IH]; intros cur secs Hne Hcur Hget Hnames.
  - exists cur, secs. auto.
  - cbn [for_each scan_step]. destruct (is_header l) eqn:Hl.
    + cbn [bind]. apply IH.
      * apply Hnames; [now left | exact Hl].
      * apply keys_set_in.
      * rewrite dict_get_set.
        destruct (String.eqb_spec (header_name l) name) as [Heq|]; [|exact Hget].
        exfalso. exact (Hnames l (or_introl eq_refl) Hl Heq).
      * intros l' Hin. apply Hnames. now right.
    + destruct (dict_append_in cur l secs Hcur) as (d' & Happ & Hkeys).
      rewrite Happ. cbn [bind]. apply IH.
      * exact Hne.
      * now rewrite Hkeys.
      * rewrite (dict_get_append _ _ _ _ _ Happ).
        destruct (String.eqb_spec cur name); [congruence | exact Hget].
      * intros l' Hin. apply Hnames. now right.
Qed.

(** A run of lines under the name, then lines that start with a header and
    hold no header of the name. *)
Lemma scan_run_then_rest (body after : list string) (secs : dict (list string))
    (b : list string) :
  dict_get name secs = Some b ->
  (forall l, In l body -> is_header l = false) ->
  (after = [] \/ exists h rest, after = h :: rest /\ is_header h = true) ->
  (forall l, In l after -> is_header l = true -> header_name l <> name) ->
  exists cur' secs',
    for_each scan_step (body ++ after) (name, secs) = Ok (cur', secs')
    /\ dict_get name secs' = Some (b ++ body).
Proof.
  intros Hget Hbody Hstart Hnames. rewrite for_each_app.
  destruct (scan_run body secs b Hget Hbody) as (s1 & Hrun & Hget1).
  rewrite Hrun. cbn [bind].
  destruct Hstart as [-> | (h & rest & -> & Hh)].
  - exists name, s1. auto.
  - cbn [for_each scan_step]. rewrite Hh. cbn [bind].
    assert (Hne : header_name h <> name)
      by (apply Hnames; [now left | exact Hh]).
    apply scan_keeps.
    + exact Hne.
    + apply keys_set_in.
    + rewrite dict_get_set.
      destruct (String.eqb_spec (header_name h) name); [congruence|].
      exact Hget1.
    + intros l Hin. apply Hnames. now right.
Qed.
End OneSection.

Lemma process_of_scan (text cur : string) (secs : dict (list string)) :
  for_each scan_step (split LF text) scan_init = Ok (cur, secs) ->
  process_style_guide text = Ok (dict_map (String.concat nl) secs).
Proof.
  intros Hrun. unfold process_style_guide, scan_sections. now rewrite Hrun.
Qed.

End ScanMore.

Section SectionNames.
Import StyleGuideProcessor SectionizerSpec SectionizerFacts.
Local Open Scope list_scope.

(** X1. The section names of the result are pairwise different; a name is
    among them exactly when it is General or the name a header line of the
    text gives; and General is the first of them. *)
Theorem section_names (text : string) :
  exists guide,
    process_style_guide text = Ok guide
    /\ NoDup (keys guide)
    /\ (forall k, In k (keys guide) <->
                  k = "General" \/ In k (header_names text))
    /\ hd_error (keys guide) = Some "General".
Proof.
  destruct (scan_keys (split LF text) "General" [("General", [])])
    as (cur & secs & Hrun & Hnd & Hin & Hhd).
  { now left. }
  { repeat constructor. intros []. }
  exists (dict_map (String.concat nl) secs).
  split; [exact (process_of_scan text cur secs Hrun)|].
  rewrite keys_map. split; [exact Hnd|]. split; [|exact Hhd].
  intros k. rewrite Hin. unfold header_names. simpl. intuition congruence.
Qed.

(** X2. The body of a section is the run of lines after the last header
    with its name: when a header line is followed by lines that are not
    headers, and what comes next is the end of the text or a header, and no
    later header gives the same name, the section of that name holds
    exactly those lines, joined by newlines. *)
Theorem section_body_last_run (text : string)
    (before body after : list string) (h : string) :
  split LF text = before ++ h :: body ++ after ->
  is_header h = true ->
  (forall l, In l body -> is_header l = false) ->
  (after = [] \/ exists h' rest, after = h' :: rest /\ is_header h' = true) ->
  (forall l, In l after -> is_header l = true ->
             header_name l <> header_name h) ->
  exists guide,
    process_style_guide text = Ok guide
    /\ dict_get (header_name h) guide = Some (String.concat nl body).
Proof.
  intros Hsplit Hh Hbody Hstart Hnames.
  destruct (for_each_scan_total before "General" [("General", [])])
    as (c0 & s0 & Hrun0 & _); [now left|].
  destruct (scan_run_then_rest (header_name h) body after
              (dict_set (header_name h) [] s0) [])
    as (cur & secs & Hrun & Hget); try assumption.
  { rewrite dict_get_set. now rewrite String.eqb_refl. }
  exists (dict_map (String.concat nl) secs). split.
  - apply (process_of_scan text cur). rewrite Hsplit, for_each_app.
    change (for_each scan_step before scan_init = Ok (c0, s0)) in Hrun0.
    rewrite Hrun0. cbn [bind for_each scan_step]. rewrite Hh. exact Hrun.
  - rewrite dict_get_map, Hget. reflexivity.
Qed.

Lemma section_body_last_run_witness :
  exists guide,
    process_style_guide
      ("TONE" ++ nl ++ "old" ++ nl ++ "TONE" ++ nl ++ "new" ++ nl
       ++ "Rules:" ++ nl ++ "short")%string
    = Ok guide
    /\ dict_get "TONE" guide = Some "new".
Proof.
  refine (section_body_last_run
            ("TONE" ++ nl ++ "old" ++ nl ++ "TONE" ++ nl ++ "new" ++ nl
             ++ "Rules:" ++ nl ++ "short")%string
            ["TONE"; "old"] ["new"] ["Rules:"; "short"]
            "TONE" eq_refl eq_refl _ _ _).
  - intros l [<- | []]. reflexivity.
  - right. exists "Rules:", ["short"]. split; reflexivity.
  - intros l [<- | [<- | []]] Hl; [discriminate | discriminate].
Defined.

(** X3. The default section holds the lines before the first header: when
    the text starts with lines that are not headers, and what comes next is
    the end of the text or a header, and no header gives the name General,
    the section General holds exactly those lines, joined by newlines. *)
Theorem general_body_first_run (text : string) (body after : list string) :
  split LF text = body ++ after ->
  (forall l, In l body -> is_header l = false) ->
  (after = [] \/ exists h' rest, after = h' :: rest /\ is_header h' = true) ->
  (forall l, In l after -> is_header l = true -> header_name l <> "General") ->
  exists guide,
    process_style_guide text = Ok guide
    /\ dict_get "General" guide = Some (String.concat nl body).
Proof.
  intros Hsplit Hbody Hstart Hnames.
  destruct (scan_run_then_rest "General" body after [("General", [])] [])
    as (cur & secs & Hrun & Hget); try assumption; [reflexivity|].
  exists (dict_map (String.concat nl) secs). split.
  - apply (process_of_scan text cur). rewrite Hsplit. exact Hrun.
  - rewrite dict_get_map, Hget. reflexivity.
Qed.

Lemma general_body_first_run_witness :
  exists guide,
    process_style_guide
      ("be brief" ++ nl ++ "be kind" ++ nl ++ "TONE" ++ nl ++ "warm")%string
    = Ok guide
    /\ dict_get "General" guide = Some ("be brief" ++ nl ++ "be kind")%string.
Proof.
  refine (general_body_first_run
            ("be brief" ++ nl ++ "be kind" ++ nl ++ "TONE" ++ nl ++ "warm")%string
            ["be brief"; "be kind"] ["TONE"; "warm"] eq_refl _ _ _).
  - intros l [<- | [<- | []]]; reflexivity.
  - right. exists "TONE", ["warm"]. split; reflexivity.
  - intros l [<- | [<- | []]] Hl; discriminate.
Defined.

End SectionNames.

(** ** Reading a document and the context it gives *)

Section Documents.
Import StyleGuideProcessor SectionizerFacts TextAnalyzer.

Lemma extract_pages_ok (texts : list string) (acc : string) :
  for_each (fun full_text (p : page) => t <- p ;; Ok (full_text ++ t ++ nl))
           (map Ok texts) acc
  = Ok (acc ++ fold_right append "" (map (fun t => t ++ nl) texts)).
Proof.
  revert acc. induction texts as [|t ts IH]; intros acc; simpl.
  - now rewrite append_nil_r.
  - rewrite IH. now rewrite !append_assoc.
Qed.

(** X4. The text of a document is the text of each page followed by a
    newline, in page order, and the empty string for no page. When a page
    cannot be read the exception of the first such page is raised and no
    text is returned; when the document cannot be opened its exception is
    raised. *)
Theorem extract_pdf_text_pages :
  (forall texts,
      extract_pdf_text (Ok (map Ok texts))
      = Ok (fold_right append "" (map (fun t => t ++ nl) texts)))
  /\ (forall texts e rest,
         extract_pdf_text (Ok (map Ok texts ++ Raise e :: rest)%list)
         = Raise e)
  /\ (forall e, extract_pdf_text (Raise e) = Raise e).
Proof.
  unfold extract_pdf_text. cbn [bind]. repeat split.
  - intros texts. now rewrite extract_pages_ok.
  - intros texts e rest. rewrite for_each_app, extract_pages_ok.
    reflexivity.
Qed.

Lemma process_style_guide_head (text : string) (guide : dict string) :
  process_style_guide text = Ok guide ->
  exists body rest, guide = ("General", body) :: rest.
Proof.
  intros Hrun.
  destruct (scan_keys (split LF text) "General" [("General", [])])
    as (cur & secs & Hscan & _ & _ & Hhd).
  { now left. }
  { repeat constructor. intros []. }
  rewrite (process_of_scan text cur secs Hscan) in Hrun.
  inversion Hrun; subst. destruct secs as [|[k b] r]; [discriminate|].
  cbn in Hhd. inversion Hhd; subst. cbn. eauto.
Qed.

(** X5. A successful load stores the guide it returns, and from then on
    the context of the prompts starts with the section General; a new
    analyzer has the placeholder. *)
Theorem context_after_load (self : t) (pdf : pdf_file) (guide : dict string) :
  snd (load_style_guide self pdf) = Ok guide ->
  style_guide (fst (load_style_guide self pdf)) = guide
  /\ (exists rest,
         style_guide_context (style_guide (fst (load_style_guide self pdf)))
         = "General: " ++ rest)
  /\ style_guide_context (style_guide (init (client self)))
     = "No style guide loaded.".
Proof.
  unfold load_style_guide.
  destruct (extract_pdf_text pdf) as [text|e]; [|discriminate].
  destruct (process_style_guide text) as [g|e] eqn:Hg; [|discriminate].
  cbn. intros H. inversion H; subst. split; [reflexivity|].
  split; [|reflexivity].
  destruct (process_style_guide_head text guide Hg) as (body & rest & ->).
  unfold style_guide_context. cbn [map].
  destruct rest as [|kv rest].
  - eexists. cbn. reflexivity.
  - rewrite concat_cons by discriminate. unfold render_section at 1.
    cbn [fst snd]. eexists. rewrite !append_assoc. reflexivity.
Qed.

Lemma context_after_load_witness :
  exists rest,
    style_guide_context
      (style_guide
         (fst (load_style_guide (init (fun _ => Ok (PyStr "")))
                 Samples.new_document)))
    = "General: " ++ rest.
Proof.
  exact (proj1 (proj2 (context_after_load (init (fun _ => Ok (PyStr "")))
                         Samples.new_document
                         [("General", ""); ("TONE", "be kind" ++ nl)]
                         eq_refl))).
Defined.

End Documents.

(** ** More on cleaning *)

Lemma prefix_at_start (pat s : string) : prefix pat (pat ++ s) = true.
Proof.
  induction pat as [|c q IH]; simpl; [destruct s; reflexivity|].
  destruct (ascii_dec c c); [exact IH | congruence].
Qed.

Lemma prefix_length (pat s : string) :
  prefix pat s = true -> String.length pat <= String.length s.
Proof.
  revert s. induction pat as [|c q IH]; intros s; [simpl; lia|].
  destruct s as [|a r]; simpl; [discriminate|].
  destruct (ascii_dec c a); [|discriminate].
  intros H. specialize (IH r H). lia.
Qed.

Lemma replace_from_skip (pat new q s : string) :
  replace_from (String.length q) pat new (q ++ s) = replace_from 0 pat new s.
Proof. induction q as [|c q IH]; [reflexivity | exact IH]. Qed.

Section ReplaceFacts.
Variables pat new : string.

(** An occurrence at the start is replaced. *)
Lemma replace_at_start (s : string) :
  pat <> "" -> replace pat new (pat ++ s) = new ++ replace pat new s.
Proof.
  intros Hne. unfold replace.
  pose proof (prefix_at_start pat s) as Hp.
  destruct pat as [|c q]; [congruence|].
  change (String c q ++ s) with (String c (q ++ s)) in *.
  cbn [replace_from]. rewrite Hp.
  replace (String.length (String c q) - 1) with (String.length q)
    by (simpl; lia).
  now rewrite replace_from_skip.
Qed.

(** A stretch without the first character of the pattern is passed over. *)
Lemma replace_pass (c : ascii) (q body rest : string) :
  pat = String c q ->
  str_existsb (Ascii.eqb c) body = false ->
  replace pat new (body ++ rest) = body ++ replace pat new rest.
Proof.
  intros Hpat. unfold replace. induction body as [|a r IH]; [reflexivity|].
  simpl str_existsb. intros [Ha Hr]%orb_false_iff.
  change (String a r ++ rest) with (String a (r ++ rest)).
  cbn [replace_from]. rewrite Hpat at 1. simpl prefix.
  destruct (ascii_dec c a) as [->|_].
  - now rewrite Ascii.eqb_refl in Ha.
  - rewrite IH by exact Hr. reflexivity.
Qed.

Lemma replace_from_length :
  String.length new <= String.length pat ->
  forall s k,
    k <= String.length s ->
    String.length (replace_from k pat new s) + k <= String.length s.
Proof.
  intros Hnew. induction s as [|c r IH]; intros k Hk.
  - simpl in *. lia.
  - destruct k as [|k]; cbn [replace_from String.length] in *.
    + destruct (prefix pat (String c r)) eqn:Hp.
      * apply prefix_length in Hp. cbn [String.length] in Hp.
        rewrite append_length.
        specialize (IH (String.length pat - 1)). lia.
      * specialize (IH 0). cbn [String.length]. lia.
    + specialize (IH k). lia.
Qed.

Lemma replace_length (s : string) :
  String.length new <= String.length pat ->
  String.length (replace pat new s) <= String.length s.
Proof.
  intros Hnew. pose proof (replace_from_length Hnew s 0). unfold replace. lia.
Qed.
End ReplaceFacts.

Lemma str_existsb_append (p : ascii -> bool) (a b : string) :
  str_existsb p (a ++ b) = str_existsb p a || str_existsb p b.
Proof.
  induction a as [|c a IH]; simpl; [reflexivity|].
  now rewrite IH, orb_assoc.
Qed.

Section CleanMore.
Import ContentFormatter.

(** X6. The cleaned text never begins or ends with whitespace. *)
Theorem clean_text_trimmed (v : py_value) :
  begins is_space (clean_text v) = false
  /\ ends is_space (clean_text v) = false.
Proof. unfold clean_text, strip. apply strip_by_ends_clear. Qed.

(** X7. Cleaning never makes a text longer. *)
Theorem clean_text_not_longer (v : py_value) :
  String.length (clean_text v) <= String.length (py_str v).
Proof.
  unfold clean_text, strip.
  repeat match goal with
         | |- String.length (strip_by ?p ?s) <= _ =>
             apply (Nat.le_trans _ _ _ (strip_by_length p s))
         | |- String.length (replace ?a ?b ?s) <= _ =>
             apply (Nat.le_trans _ _ _
                      (replace_length a b s ltac:(cbn; lia)))
         end.
  constructor.
Qed.

(** X8. A text with no marker and no escape sequence that has no quote and
    no whitespace at either end is returned as it is. *)
Theorem clean_text_plain_fixed (x : string) :
  marker_free x = true ->
  quoted_end x = false ->
  begins is_space x = false ->
  ends is_space x = false ->
  clean_text (PyStr x) = x.
Proof.
  intros Hfree [Hqb Hqe]%orb_false_iff Hsb Hse.
  rewrite (clean_text_plain x Hfree).
  rewrite (strip_by_fixed is_quote x Hqb Hqe).
  exact (strip_by_fixed is_space x Hsb Hse).
Qed.

Lemma clean_text_plain_fixed_witness :
  clean_text (PyStr "Dear team, thank you.") = "Dear team, thank you.".
Proof.
  exact (clean_text_plain_fixed "Dear team, thank you."
           eq_refl eq_refl eq_refl eq_refl).
Defined.

(** The characters a wrapped body must not hold: the opening bracket, the
    double quote and the backslash. *)
Definition breaks_wrapper (c : ascii) : bool :=
  Ascii.eqb "["%char c || Ascii.eqb dquote c || Ascii.eqb backslash c.

Lemma breaks_wrapper_none (body : string) :
  str_existsb breaks_wrapper body = false ->
  str_existsb (Ascii.eqb "["%char) body = false
  /\ str_existsb (Ascii.eqb dquote) body = false
  /\ str_existsb (Ascii.eqb backslash) body = false.
Proof.
  induction body as [|c r IH]; [auto|]. cbn [str_existsb].
  unfold breaks_wrapper at 1.
  rewrite !orb_false_iff. intros [[[H1 H2] H3] Hr].
  destruct (IH Hr) as (I1 & I2 & I3). now rewrite H1, H2, H3, I1, I2, I3.
Qed.

(** X9. A body between the two wrapper markers is returned alone, when it
    holds no opening bracket, no double quote and no backslash, and has no
    single quote and no whitespace at either end. *)
Theorem clean_text_unwraps (v : py_value) (body : string) :
  py_str v = block_open ++ body ++ block_close ->
  str_existsb breaks_wrapper body = false ->
  quoted_end body = false ->
  begins is_space body = false ->
  ends is_space body = false ->
  clean_text v = body.
Proof.
  intros Hv Hbody [Hqb Hqe]%orb_false_iff Hsb Hse.
  destruct (breaks_wrapper_none body Hbody) as (Hbr & Hdq & Hbs).
  unfold clean_text. rewrite Hv.
  rewrite replace_at_start by discriminate. cbn [append].
  rewrite <- (append_nil_r (body ++ block_close)) at 1.
  rewrite (replace_pass block_open "" "["%char _
             (body ++ block_close) "" eq_refl)
    by (rewrite str_existsb_append, Hbr; reflexivity).
  change (replace block_open "" "") with "". rewrite append_nil_r.
  rewrite (replace_pass block_close "" dquote _ body block_close
             eq_refl Hdq).
  rewrite <- (append_nil_r block_close) at 2.
  rewrite replace_at_start by discriminate.
  change (replace block_close "" "") with "". cbn [append].
  rewrite append_nil_r.
  rewrite <- (append_nil_r body) at 1.
  rewrite (replace_pass escaped_n nl backslash "n" body "" eq_refl Hbs).
  change (replace escaped_n nl "") with "". rewrite append_nil_r.
  rewrite <- (append_nil_r body) at 1.
  rewrite (replace_pass escaped_r (String CR "") backslash "r" body ""
             eq_refl Hbs).
  change (replace escaped_r (String CR "") "") with "". rewrite append_nil_r.
  rewrite (strip_by_fixed is_quote body Hqb Hqe).
  exact (strip_by_fixed is_space body Hsb Hse).
Qed.

Lemma clean_text_unwraps_witness :
  clean_text
    (PyContainer (block_open ++ "Dear team, it's done." ++ block_close))
  = "Dear team, it's done.".
Proof.
  exact (clean_text_unwraps
           (PyContainer (block_open ++ "Dear team, it's done." ++ block_close))
           "Dear team, it's done." eq_refl eq_refl eq_refl eq_refl eq_refl).
Defined.

End CleanMore.

(** ** More on the brace pattern and the analysis *)

Lemma upto_last_none (c : ascii) (s : string) :
  str_existsb (Ascii.eqb c) s = false -> upto_last c s = None.
Proof.
  induction s as [|a r IH]; [reflexivity|]. simpl.
  intros [Ha Hr]%orb_false_iff. rewrite (IH Hr).
  rewrite Ascii.eqb_sym, Ha. reflexivity.
Qed.

Lemma upto_last_closing (c : ascii) (mid post : string) :
  str_existsb (Ascii.eqb c) post = false ->
  upto_last c (mid ++ String c post) = Some (mid ++ String c "").
Proof.
  intros Hpost. induction mid as [|a r IH]; simpl.
  - now rewrite (upto_last_none c post Hpost), Ascii.eqb_refl.
  - now rewrite IH.
Qed.

Lemma re_search_no_open (s : string) :
  str_existsb (Ascii.eqb "{"%char) s = false -> re_search_braces s = None.
Proof.
  induction s as [|a r IH]; [reflexivity|]. cbn [str_existsb].
  intros [Ha Hr]%orb_false_iff. cbn [re_search_braces match_braces_at].
  rewrite Ascii.eqb_sym, Ha. now apply IH.
Qed.

(** X10. When no opening brace comes before an object in braces and no
    closing brace comes after it, the search gives exactly the object,
    whatever stands around it; a text with no opening brace gives
    nothing. *)
Theorem brace_span_found (before mid after : string) :
  str_existsb (Ascii.eqb "{"%char) before = false ->
  str_existsb (Ascii.eqb "}"%char) after = false ->
  re_search_braces (before ++ "{" ++ mid ++ "}" ++ after)
  = Some ("{" ++ mid ++ "}")
  /\ re_search_braces before = None.
Proof.
  intros Hb Ha. split; [|now apply re_search_no_open].
  induction before as [|a r IH].
  - cbn [append re_search_braces match_braces_at]. rewrite Ascii.eqb_refl.
    change (mid ++ String "}" after) with (mid ++ String "}"%char after).
    now rewrite (upto_last_closing "}"%char mid after Ha).
  - cbn [str_existsb] in Hb. apply orb_false_iff in Hb as [Hb1 Hb2].
    change (String a r ++ "{" ++ mid ++ "}" ++ after)
      with (String a (r ++ "{" ++ mid ++ "}" ++ after)).
    cbn [re_search_braces match_braces_at].
    rewrite Ascii.eqb_sym, Hb1. now apply IH.
Qed.

Lemma brace_span_found_witness :
  re_search_braces ("Here it is: " ++ "{" ++ "[1, {}]" ++ "}" ++ " Thanks.")
  = Some ("{" ++ "[1, {}]" ++ "}").
Proof.
  exact (proj1 (brace_span_found "Here it is: " "[1, {}]" " Thanks."
                  eq_refl eq_refl)).
Defined.

Section AnalysisMore.
Import TextAnalyzer.
Variable json_loads : string -> py_result json.

(** X11. An exception of the decoder that is not a decoding error is not
    answered with the fallback: when the first decoding raises it, or when
    the first decoding fails and the decoding of the brace span raises an
    exception that is neither a decoding error nor an attribute error, the
    call returns the degraded object with the message of that exception. *)
Theorem decoder_exception_degrades (self : t) (text content_type : string)
    (content : py_value) :
  client self (analysis_request self text content_type) = Ok content ->
  (forall e,
      json_loads (py_str content) = Raise e ->
      exn_cls e <> JSONDecodeError ->
      analyze_text json_loads self text content_type = Ok (error_response e))
  /\ (forall e span e',
         json_loads (py_str content) = Raise e ->
         exn_cls e = JSONDecodeError ->
         re_search_braces (py_str content) = Some span ->
         json_loads span = Raise e' ->
         exn_cls e' <> JSONDecodeError ->
         exn_cls e' <> AttributeError ->
         analyze_text json_loads self text content_type
         = Ok (error_response e')).
Proof.
  intros Hc. unfold analyze_text, parse_attempts. rewrite Hc. split.
  - intros e He Hcls. cbn. rewrite He. cbn.
    destruct (exn_cls e); try congruence; reflexivity.
  - intros e span e' He Hcls Hspan He' H1 H2. cbn. rewrite He. cbn.
    rewrite Hcls. cbn. rewrite Hspan, He'. cbn.
    destruct (exn_cls e'); try congruence; reflexivity.
Qed.

End AnalysisMore.

(** A text nested deeper than the decoder goes, and the decoder on it. *)
Definition deep_text : string :=
  fold_right append "" (repeat "[" 5000).

Definition too_deep : exn :=
  mk_exn OtherException
         "maximum recursion depth exceeded while decoding a JSON array from a unicode string".

Definition loads_deep (s : string) : py_result json :=
  if String.eqb s deep_text then Raise too_deep else Samples.loads s.

Lemma decoder_exception_degrades_witness :
  TextAnalyzer.analyze_text loads_deep
    (Samples.answering (PyContainer deep_text) []) "Hello team" "Email"
  = Ok (TextAnalyzer.error_response too_deep).
Proof.
  assert (Hdeep : loads_deep (py_str (PyContainer deep_text)) = Raise too_deep)
    by (vm_compute; reflexivity).
  exact (proj1 (decoder_exception_degrades loads_deep
                  (Samples.answering (PyContainer deep_text) [])
                  "Hello team" "Email" (PyContainer deep_text) eq_refl)
           too_deep Hdeep ltac:(discriminate)).
Defined.

(** An object with the deep text inside, after a word that is no JSON,
    and the decoder on the texts of this run. *)
Definition deep_object : string :=
  "{" ++ dq ++ "a" ++ dq ++ ":" ++ deep_text ++ "}".

Definition word_then_deep_object : string := "x" ++ deep_object.

Definition loads_deep_object (s : string) : py_result json :=
  if String.eqb s deep_object then Raise too_deep else Samples.loads s.

(** C4 as stated fails: decoding the whole text fails with a decoding
    error, decoding the brace span fails with a recursion error, which the
    inner handler does not name, and the call returns the degraded object,
    not the fallback. *)
Lemma decoder_failure_not_fallback :
  (exists e,
      loads_deep_object word_then_deep_object = Raise e
      /\ exn_cls e = JSONDecodeError)
  /\ re_search_braces word_then_deep_object = Some deep_object
  /\ loads_deep_object deep_object = Raise too_deep
  /\ TextAnalyzer.analyze_text loads_deep_object
       (Samples.answering (PyContainer word_then_deep_object) [])
       "Hello team" "Email"
     = Ok (TextAnalyzer.error_response too_deep)
  /\ TextAnalyzer.error_response too_deep
     <> TextAnalyzer.fallback_response "Hello team".
Proof.
  split; [eexists; split; vm_compute; reflexivity|].
  split; [vm_compute; reflexivity|].
  split; [vm_compute; reflexivity|].
  split; [vm_compute; reflexivity | discriminate].
Qed.

(** ** More on the prompts *)

Section PromptsMore.
Import TextAnalyzer.

(** X12. The content to analyze and the generation prompt are put into
    the message sent as they are, whole and unescaped. *)
Theorem prompts_embed_input (self : t) (text prompt content_type : string) :
  (exists before after,
      messages (analysis_request self text content_type)
      = [mk_message "user" (before ++ text ++ after)])
  /\ (exists before after,
         messages (generation_request self prompt content_type)
         = [mk_message "user" (before ++ prompt ++ after)]).
Proof.
  split.
  - unfold analysis_request, analysis_prompt, user_message. cbn [messages].
    do 2 eexists. do 2 f_equal.
    refine (concat_around [_; _; _; _; _; _; _; _; _] [_; _; _; _; _; _]
              "        " _ _).
    discriminate.
  - unfold generation_request, generation_prompt, user_message.
    cbn [messages]. do 2 eexists. do 2 f_equal.
    refine (concat_around [_; _; _; _; _; _; _; _; _; _; _] [_]
              "        " _ _).
    discriminate.
Qed.

(** X13. The line rendered for a section is as long as its name, plus the
    body up to 300 characters, plus five: the body is cut, the name is
    not. *)
Theorem render_section_length (k v : string) :
  String.length (render_section (k, v))
  = String.length k + Nat.min 300 (String.length v) + 5.
Proof.
  unfold render_section. cbn [fst snd].
  rewrite !append_length, take_length. cbn [String.length]. lia.
Qed.

End PromptsMore.

(** ** Generation and the pages *)

Section PagesFacts.
Import TextAnalyzer Pages.

(** X14. Whatever the remote call does, the generated string has no
    whitespace at either end, and [st.error] is called exactly when the
    remote call raised, once, with the message of the exception. *)
Theorem generate_text_trimmed (self : t) (prompt content_type : string) :
  exists s,
    fst (generate_text self prompt content_type) = Ok s
    /\ begins is_space s = false
    /\ ends is_space s = false
    /\ snd (generate_text self prompt content_type)
       = match client self (generation_request self prompt content_type) with
         | Ok _ => []
         | Raise e => ["Generation error: " ++ exn_msg e]
         end.
Proof.
  unfold generate_text.
  destruct (client self (generation_request self prompt content_type))
    as [content|e]; cbn [fst snd].
  - exists (ContentFormatter.clean_text content). split; [reflexivity|].
    unfold ContentFormatter.clean_text, strip.
    split; [|split]; try apply strip_by_ends_clear. reflexivity.
  - exists generation_failed. repeat split.
Qed.

(** X15. The sidebar returns what the radio and the select box gave. With
    no file the analyzer stays as it is. With a file that cannot be read
    the exception does not leave the call: the analyzer stays as it is and
    the sidebar shows the message of the exception. With a file that is
    read the guide made from its text is stored and the success notice is
    shown. The client is never changed. *)
Theorem create_sidebar_outcomes (analyzer : t)
    (uploaded_file : option StyleGuideProcessor.pdf_file)
    (page content_type : string) :
  let result := create_sidebar analyzer uploaded_file page content_type in
  snd result = (page, content_type)
  /\ client (fst (fst result)) = client analyzer
  /\ (uploaded_file = None -> fst (fst result) = analyzer)
  /\ (forall pdf e,
         uploaded_file = Some pdf ->
         StyleGuideProcessor.extract_pdf_text pdf = Raise e ->
         fst (fst result) = analyzer
         /\ In (sidebar_error ("Error loading style guide: " ++ exn_msg e))
               (snd (fst result))
         /\ ~ In (sidebar_success "Style guide loaded successfully!")
                 (snd (fst result)))
  /\ (forall pdf text,
         uploaded_file = Some pdf ->
         StyleGuideProcessor.extract_pdf_text pdf = Ok text ->
         StyleGuideProcessor.process_style_guide text
         = Ok (style_guide (fst (fst result)))
         /\ In (sidebar_success "Style guide loaded successfully!")
               (snd (fst result))).
Proof.
  intros result. subst result. unfold create_sidebar.
  split; [reflexivity|]. split; [|split; [|split]].
  - destruct uploaded_file as [pdf|]; [|reflexivity].
    unfold load_style_guide.
    destruct (StyleGuideProcessor.extract_pdf_text pdf); [|reflexivity].
    destruct (StyleGuideProcessor.process_style_guide a); reflexivity.
  - intros ->. reflexivity.
  - intros pdf e -> He. unfold load_style_guide. rewrite He. cbn.
    split; [reflexivity|]. split; [tauto|].
    intros H. repeat (destruct H as [H | H]; [discriminate|]). exact H.
  - intros pdf text -> Htext. unfold load_style_guide. rewrite Htext.
    destruct (SectionizerFacts.process_style_guide_total text)
      as (guide & Hguide & _).
    rewrite Hguide. cbn. split; [reflexivity | tauto].
Qed.

Lemma create_sidebar_outcomes_witness :
  fst (fst (create_sidebar
              (mk (fun _ => Ok (PyStr "")) Samples.old_guide)
              (Some Samples.broken_document) "Content Analysis" "Email"))
  = mk (fun _ => Ok (PyStr "")) Samples.old_guide
  /\ In (sidebar_error "Error loading style guide: EOF marker not found")
        (snd (fst (create_sidebar
                     (mk (fun _ => Ok (PyStr "")) Samples.old_guide)
                     (Some Samples.broken_document)
                     "Content Analysis" "Email"))).
Proof.
  destruct (proj1 (proj2 (proj2 (proj2
             (create_sidebar_outcomes
                (mk (fun _ => Ok (PyStr "")) Samples.old_guide)
                (Some Samples.broken_document) "Content Analysis" "Email"))))
             Samples.broken_document
             (mk_exn OtherException "EOF marker not found") eq_refl eq_refl)
    as (Hsame & Herr & _).
  split; [exact Hsame | exact Herr].
Defined.

(** X16. When the button is pressed the generation page ends with the
    content area, which holds what [generate_text] returned, and the
    error notice of the page itself is never shown; when it is not
    pressed the page is its four widgets. *)
Theorem generation_page_shows_content (analyzer : t)
    (content_type prompt : string) :
  (exists generated_content,
      fst (generate_text analyzer prompt content_type) = Ok generated_content
      /\ render_generation_page analyzer content_type prompt true
         = ([header "Content Generation";
             write ("Generating " ++ content_type ++ " content");
             text_area "What would you like to generate?" None
                       (Some generation_help) None;
             button "Generate Content";
             spinner "Generating..."]
            ++ map error (snd (generate_text analyzer prompt content_type))
            ++ [text_area "Generated Content (Copy-Paste Ready):"
                          (Some generated_content) None (Some 400%Z)])%list)
  /\ (forall pressed msg,
         ~ In (error ("An error occurred during generation: " ++ msg))
              (render_generation_page analyzer content_type prompt pressed))
  /\ render_generation_page analyzer content_type prompt false
     = [header "Content Generation";
        write ("Generating " ++ content_type ++ " content");
        text_area "What would you like to generate?" None
                  (Some generation_help) None;
        button "Generate Content"].
Proof.
  unfold render_generation_page, generate_text.
  destruct (client analyzer (generation_request analyzer prompt content_type))
    as [content|e]; cbn [fst snd map app].
  - split; [eauto|]. split; [|reflexivity].
    intros [|] msg H; cbn in H;
      repeat (destruct H as [H | H]; [discriminate|]); exact H.
  - split; [eauto|]. split; [|reflexivity].
    intros [|] msg H; cbn in H;
      repeat (destruct H as [H | H]; [discriminate|]); exact H.
Qed.

End PagesFacts.

(** ** Blank lines *)

Section BlankLines.
Import StyleGuideProcessor.

Lemma lstrip_all (p : ascii -> bool) (s : string) :
  str_existsb (fun c => negb (p c)) s = false -> lstrip p s = "".
Proof.
  induction s as [|c r IH]; [reflexivity|]. cbn [str_existsb lstrip].
  intros [Hc Hr]%orb_false_iff. apply negb_false_iff in Hc.
  rewrite Hc. now apply IH.
Qed.

(** X17. A line that is empty or made of whitespace only is not a header:
    the scan appends it, as it is, to the body of the current section. *)
Theorem blank_line_kept (line cur : string) (sections : dict (list string)) :
  str_existsb (fun c => negb (is_space c)) line = false ->
  is_header line = false
  /\ scan_step (cur, sections) line
     = (sections' <- dict_append cur line sections ;; Ok (cur, sections')).
Proof.
  intros Hblank.
  assert (Hh : is_header line = false).
  { unfold is_header, isupper, strip, strip_by.
    rewrite (lstrip_all is_space line Hblank). cbn [rstrip endswith].
    rewrite orb_false_r. apply andb_false_iff. right.
    apply str_existsb_false. intros c Hin.
    apply is_space_not_upper.
    pose proof (proj1 (str_existsb_false _ _) Hblank c Hin) as Hc.
    now apply negb_false_iff in Hc. }
  split; [exact Hh|]. unfold scan_step. now rewrite Hh.
Qed.

Lemma blank_line_kept_witness :
  scan_step ("TONE", [("General", []); ("TONE", ["be kind"])]) "  "
  = Ok ("TONE", [("General", []); ("TONE", ["be kind"; "  "])]).
Proof.
  exact (eq_trans
           (proj2 (blank_line_kept "  " "TONE"
                     [("General", []); ("TONE", ["be kind"])] eq_refl))
           eq_refl).
Defined.

End BlankLines.
